(** * Master Wilayah: the hierarchical lookup engine of [data_master.py]

    A shallow embedding of the query core of [data_master.py]
    ([load_data], [get_cached_suggestions], [api_search_table] with its
    inner [apply_filter], [api_get_suggestions]) and the properties of
    it that the specification states.

    Conventions of the embedding.
    - A Python [str] is a [string]; each [ascii] is one code point below
      256, and the [str] methods are modelled as CPython defines them on
      those code points.
    - The pandas frame [df_master] is the list of its rows, in index
      order; a boolean-mask selection [df[mask]] is [List.filter].
    - [Series.str.contains(pat, na=False)] is called with its default
      [regex=True]: the pattern is compiled by [re.compile] and searched
      in every cell.  The module [Re] models that engine on a fragment of
      the pattern syntax and says so where a pattern leaves the fragment.
    - A call either returns, raises, or leaves the modelled fragment:
      the type [outcome]. *)

From Stdlib Require Import String Ascii List Bool Arith Lia Sorted.
From Stdlib Require OrderedTypeEx.
Import ListNotations.

Local Open Scope string_scope.
Local Open Scope list_scope.
Local Open Scope nat_scope.

(** ** Outcomes of a call *)

Inductive exn : Type :=
| ReError.   (* re.error, raised by re.compile on an invalid pattern *)

Inductive outcome (A : Type) : Type :=
| Ret (a : A)          (* the call returns [a] *)
| Raise (e : exn)      (* the call raises [e] *)
| Beyond.              (* a pattern outside the modelled regex fragment *)

Arguments Ret {A} a.
Arguments Raise {A} e.
Arguments Beyond {A}.

Definition bind {A B : Type} (m : outcome A) (k : A -> outcome B) : outcome B :=
  match m with
  | Ret a => k a
  | Raise e => Raise e
  | Beyond => Beyond
  end.

Notation "x <- m ;; k" := (bind m (fun x => k))
  (at level 61, m at next level, right associativity).

(** ** Python [str] methods *)

Module PyStr.

Definition ord (c : ascii) : nat := nat_of_ascii c.

Definition between (lo hi : nat) (c : ascii) : bool :=
  (lo <=? ord c) && (ord c <=? hi).

(** [c.isdigit()]: the decimal digits and the superscripts 1, 2, 3. *)
Definition isdigit_char (c : ascii) : bool :=
  between 48 57 c || (ord c =? 178) || (ord c =? 179) || (ord c =? 185).

(** [c.isspace()] below 256. *)
Definition isspace_char (c : ascii) : bool :=
  between 9 13 c || between 28 32 c || (ord c =? 133) || (ord c =? 160).

(** [c.lower()] below 256: A-Z and the Latin-1 capitals move up by 32.
    On these code points [str.lower] works character by character and
    keeps the length; beyond them it does not. *)
Definition lower_char (c : ascii) : ascii :=
  if between 65 90 c || (between 192 222 c && negb (ord c =? 215))
  then ascii_of_nat (ord c + 32)
  else c.

Fixpoint all_chars (p : ascii -> bool) (s : string) : bool :=
  match s with
  | EmptyString => true
  | String c s' => p c && all_chars p s'
  end.

(** [s.isdigit()]: false on the empty string. *)
Definition isdigit (s : string) : bool :=
  match s with
  | EmptyString => false
  | _ => all_chars isdigit_char s
  end.

Fixpoint lower (s : string) : string :=
  match s with
  | EmptyString => EmptyString
  | String c s' => String (lower_char c) (lower s')
  end.

Fixpoint lstrip (s : string) : string :=
  match s with
  | EmptyString => EmptyString
  | String c s' => if isspace_char c then lstrip s' else s
  end.

Fixpoint rstrip (s : string) : string :=
  match s with
  | EmptyString => EmptyString
  | String c s' =>
      match rstrip s' with
      | EmptyString => if isspace_char c then EmptyString else String c EmptyString
      | t => String c t
      end
  end.

Definition strip (s : string) : string := rstrip (lstrip s).

Fixpoint zeros (n : nat) : string :=
  match n with
  | 0 => EmptyString
  | S n' => String "0" (zeros n')
  end.

(** [s.zfill(width)]: pads on the left with ['0'], after a leading sign if
    there is one; a string already [width] long or longer is unchanged. *)
Definition zfill (width : nat) (s : string) : string :=
  if width <=? String.length s then s
  else
    let pad := zeros (width - String.length s) in
    match s with
    | String c s' =>
        if Ascii.eqb c "+" || Ascii.eqb c "-" then String c (pad ++ s')%string
        else (pad ++ s)%string
    | EmptyString => pad
    end.

(** [s[:n]] *)
Definition slice_to (n : nat) (s : string) : string := String.substring 0 n s.

(** [s.startswith(q)] *)
Definition startswith (q s : string) : bool := String.prefix q s.

(** [q in s]: literal substring containment. *)
Fixpoint contains (q s : string) : bool :=
  String.prefix q s ||
  match s with
  | EmptyString => false
  | String _ s' => contains q s'
  end.

(** Truthiness of a [str]. *)
Definition truthy (s : string) : bool :=
  match s with
  | EmptyString => false
  | _ => true
  end.

End PyStr.

(** ** The regular expressions of [re], on a fragment

    Modelled: literal characters, [.], a backslash before a character
    that is not an ASCII letter or digit, the repeats [*], [+], [?]
    (greedy, one per item), alternation and capturing groups.
    Everything else of the fourteen special characters ([[]{}^$], a
    backslash before a letter or digit, [(?], a repeat after a repeat)
    is reported as [PBeyond]. *)

Module Re.

Inductive regex : Type :=
| RNone                       (* matches nothing *)
| REps                        (* matches the empty string *)
| RChr (c : ascii)
| RAny                        (* [.]: any character but the newline *)
| RAlt (r1 r2 : regex)
| RSeq (r1 r2 : regex)
| RStar (r : regex).

Inductive presult : Type :=
| POk (r : regex) (rest : string)
| PErr                        (* re.compile raises re.error *)
| PBeyond.

Definition is_repeat (c : ascii) : bool :=
  Ascii.eqb c "*" || Ascii.eqb c "+" || Ascii.eqb c "?".

Definition is_unmodelled (c : ascii) : bool :=
  Ascii.eqb c "[" || Ascii.eqb c "]" || Ascii.eqb c "{" || Ascii.eqb c "}"
  || Ascii.eqb c "^" || Ascii.eqb c "$".

Definition is_alnum (c : ascii) : bool :=
  PyStr.between 48 57 c || PyStr.between 65 90 c || PyStr.between 97 122 c.

(** The fourteen special characters of the pattern syntax. *)
Definition is_special (c : ascii) : bool :=
  is_repeat c || is_unmodelled c || Ascii.eqb c "." || Ascii.eqb c "\"
  || Ascii.eqb c "|" || Ascii.eqb c "(" || Ascii.eqb c ")".

Definition plain (pat : string) : bool :=
  PyStr.all_chars (fun c => negb (is_special c)) pat.

Definition repeat_of (q : ascii) (r : regex) : regex :=
  if Ascii.eqb q "*" then RStar r
  else if Ascii.eqb q "+" then RSeq r (RStar r)
  else RAlt r REps.

(** An item has been read; read its repeat, if any.  Returns the item
    and what follows it. *)
Definition with_repeat (r : regex) (rest : string) : presult :=
  match rest with
  | String q rest' =>
      if is_repeat q then
        match rest' with
        | String q' _ => if is_repeat q' then PBeyond else POk (repeat_of q r) rest'
        | EmptyString => POk (repeat_of q r) rest'
        end
      else POk r rest
  | EmptyString => POk r rest
  end.

Fixpoint parse_alt (fuel : nat) (s : string) : presult :=
  match fuel with
  | 0 => PBeyond
  | S f =>
      match parse_seq f s with
      | POk r (String "|" rest) =>
          match parse_alt f rest with
          | POk r2 rest2 => POk (RAlt r r2) rest2
          | e => e
          end
      | other => other
      end
  end
with parse_seq (fuel : nat) (s : string) : presult :=
  match fuel with
  | 0 => PBeyond
  | S f =>
      match s with
      | EmptyString => POk REps s
      | String c s' =>
          if Ascii.eqb c "|" || Ascii.eqb c ")" then POk REps s
          else if is_repeat c then PErr                 (* nothing to repeat *)
          else if is_unmodelled c then PBeyond
          else
            let item :=
              if Ascii.eqb c "(" then
                match s' with
                | String "?" _ => PBeyond
                | _ =>
                    match parse_alt f s' with
                    | POk r (String ")" rest) => with_repeat r rest
                    | POk _ _ => PErr                   (* missing ) *)
                    | e => e
                    end
                end
              else if Ascii.eqb c "\" then
                match s' with
                | EmptyString => PErr                   (* bad escape *)
                | String d s'' =>
                    if is_alnum d then PBeyond else with_repeat (RChr d) s''
                end
              else if Ascii.eqb c "." then with_repeat RAny s'
              else with_repeat (RChr c) s'
            in
            match item with
            | POk r rest =>
                match parse_seq f rest with
                | POk r2 rest2 => POk (RSeq r r2) rest2
                | e => e
                end
            | e => e
            end
      end
  end.

(** [re.compile(pat)] *)
Definition compile (pat : string) : outcome regex :=
  match parse_alt (2 * String.length pat + 2) pat with
  | POk r EmptyString => Ret r
  | POk _ _ => Raise ReError                            (* unbalanced ) *)
  | PErr => Raise ReError
  | PBeyond => Beyond
  end.

Fixpoint nullable (r : regex) : bool :=
  match r with
  | RNone => false
  | REps => true
  | RChr _ => false
  | RAny => false
  | RAlt a b => nullable a || nullable b
  | RSeq a b => nullable a && nullable b
  | RStar _ => true
  end.

Definition alt (r1 r2 : regex) : regex :=
  match r1, r2 with
  | RNone, _ => r2
  | _, RNone => r1
  | _, _ => RAlt r1 r2
  end.

Definition seq (r1 r2 : regex) : regex :=
  match r1, r2 with
  | RNone, _ => RNone
  | _, RNone => RNone
  | REps, _ => r2
  | _, _ => RSeq r1 r2
  end.

Definition newline : ascii := ascii_of_nat 10.

(** The derivative of [r] by the character [c]. *)
Fixpoint deriv (c : ascii) (r : regex) : regex :=
  match r with
  | RNone => RNone
  | REps => RNone
  | RChr a => if Ascii.eqb a c then REps else RNone
  | RAny => if Ascii.eqb c newline then RNone else REps
  | RAlt a b => alt (deriv c a) (deriv c b)
  | RSeq a b => alt (seq (deriv c a) b) (if nullable a then deriv c b else RNone)
  | RStar a => seq (deriv c a) (RStar a)
  end.

(** Some prefix of [s] matches [r]. *)
Fixpoint match_here (r : regex) (s : string) : bool :=
  nullable r ||
  match s with
  | EmptyString => false
  | String c s' => match_here (deriv c r) s'
  end.

(** [r.search(s) is not None] *)
Fixpoint search (r : regex) (s : string) : bool :=
  match_here r s ||
  match s with
  | EmptyString => false
  | String _ s' => search r s'
  end.

(** The expression [compile] builds for a pattern of literals. *)
Fixpoint lit (p : string) : regex :=
  match p with
  | EmptyString => REps
  | String c p' => RSeq (RChr c) (lit p')
  end.

End Re.

(** ** The data set *)

(** One line of [master.csv] as [pd.read_csv(DATA_PATH, dtype=str)] gives
    it: a cell is a string, or missing ([NaN], here [None]). *)
Record raw_row : Type := {
  raw_kode_prov : option string;  raw_nama_prov : option string;
  raw_kode_kab  : option string;  raw_kab_nama  : option string;
  raw_kode_kec  : option string;  raw_kec_nama  : option string;
  raw_kode_desa : option string;  raw_desa_nama : option string
}.

(** One row of [df_master]: the eight columns of the source and the four
    lowercase search columns [load_data] adds. *)
Record row : Type := {
  kode_prov : string;  nama_prov : string;
  kode_kab  : string;  kab_nama  : string;
  kode_kec  : string;  kec_nama  : string;
  kode_desa : string;  desa_nama : string;
  _search_prov : string;  _search_kab  : string;
  _search_kec  : string;  _search_desa : string
}.

Definition frame : Type := list row.

(** [df.empty] *)
Definition empty {A : Type} (df : list A) : bool :=
  match df with
  | [] => true
  | _ => false
  end.

(** [.fillna("")] on one cell *)
Definition fillna (cell : option string) : string :=
  match cell with
  | Some s => s
  | None => ""
  end.

(** [.str.strip().str.zfill(width)] on one cell *)
Definition pad_code (width : nat) (cell : option string) : string :=
  PyStr.zfill width (PyStr.strip (fillna cell)).

Definition load_row (raw : raw_row) : row := {|
  kode_prov := pad_code 2 (raw_kode_prov raw);
  nama_prov := fillna (raw_nama_prov raw);
  kode_kab  := pad_code 2 (raw_kode_kab raw);
  kab_nama  := fillna (raw_kab_nama raw);
  kode_kec  := pad_code 3 (raw_kode_kec raw);
  kec_nama  := fillna (raw_kec_nama raw);
  kode_desa := pad_code 3 (raw_kode_desa raw);
  desa_nama := fillna (raw_desa_nama raw);
  _search_prov := PyStr.lower (fillna (raw_nama_prov raw));
  _search_kab  := PyStr.lower (fillna (raw_kab_nama raw));
  _search_kec  := PyStr.lower (fillna (raw_kec_nama raw));
  _search_desa := PyStr.lower (fillna (raw_desa_nama raw))
|}.

(** [load_data]: the value it leaves in [df_master].  [src] is what the
    [try] block reads: [None] when anything in it raises (the file is
    missing or unparseable, a column is absent), the lines otherwise. *)
Definition load_data (src : option (list raw_row)) : frame :=
  match src with
  | Some lines => map load_row lines
  | None => []
  end.

(** ** Frame operations *)

(** [df[df[col].str.contains(pat, na=False)]], with the default
    [regex=True]: the pattern is compiled once, before any cell is looked
    at, so an invalid pattern raises on an empty column too. *)
Definition str_contains (col : row -> string) (pat : string) (df : frame)
  : outcome frame :=
  r <- Re.compile pat ;;
  Ret (filter (fun x => Re.search r (col x)) df).

Definition key_eqb (k1 k2 : list string) : bool :=
  if list_eq_dec string_dec k1 k2 then true else false.

(** [drop_duplicates]: of the rows with one key, the first is kept. *)
Fixpoint drop_duplicates {A : Type} (key : A -> list string) (l : list A) : list A :=
  match l with
  | [] => []
  | x :: l' =>
      x :: filter (fun y => negb (key_eqb (key y) (key x))) (drop_duplicates key l')
  end.

Definition subset_key (cols : list (row -> string)) (x : row) : list string :=
  map (fun col => col x) cols.

Definition pair_key (p : string * string) : list string := [fst p; snd p].

Fixpoint insert_by_code (p : string * string) (l : list (string * string))
  : list (string * string) :=
  match l with
  | [] => [p]
  | q :: l' =>
      if String.leb (fst p) (fst q) then p :: l else q :: insert_by_code p l'
  end.

(** [sort_values(col_code)] on the (code, name) pairs: ascending by the
    code, compared as Python compares [str].  pandas does not promise an
    order among equal codes; this model keeps them in frame order. *)
Fixpoint sort_values (l : list (string * string)) : list (string * string) :=
  match l with
  | [] => []
  | p :: l' => insert_by_code p (sort_values l')
  end.

(** ** [highlight_text] *)

Module Highlight.

Definition dquote : string := String (ascii_of_nat 34) EmptyString.

(** The two halves of the replacement template, around [\1]. *)
Definition mark_open : string :=
  ("<mark class=" ++ dquote
   ++ "bg-yellow-200 dark:bg-yellow-900/60 dark:text-yellow-100 rounded-sm px-0.5"
   ++ dquote ++ ">")%string.

Definition mark_close : string := "</mark>".

(** The characters [re.escape] puts a backslash before. *)
Definition escaped_char (c : ascii) : bool :=
  Re.is_special c
  || Ascii.eqb c "-" || Ascii.eqb c "&" || Ascii.eqb c "~" || Ascii.eqb c "#"
  || PyStr.between 9 13 c || Ascii.eqb c " ".

(** [re.escape(query)] *)
Fixpoint re_escape (query : string) : string :=
  match query with
  | EmptyString => EmptyString
  | String c q' =>
      if escaped_char c then String "\" (String c (re_escape q'))
      else String c (re_escape q')
  end.

(** [f"({safe_query})"] *)
Definition pattern_of (query : string) : string :=
  ("(" ++ re_escape query ++ ")")%string.

(** The escaped pattern is the query itself, read with [re.IGNORECASE]:
    it matches at the start of [s] when the two agree character by
    character once lowercased.  That is what the flag decides on code
    points below 256; beyond them the two relations differ. *)
Definition match_at (query s : string) : bool :=
  String.prefix (PyStr.lower query) (PyStr.lower s).

(** [s[n:]] *)
Fixpoint slice_from (n : nat) (s : string) : string :=
  match n, s with
  | 0, _ => s
  | S n', String _ s' => slice_from n' s'
  | S _, EmptyString => EmptyString
  end.

(** [re.sub] with the template [opening \1 closing], for a pattern whose
    matches all have the length of [query] (not zero): from left to
    right, a match is wrapped and the scan goes on after it, any other
    character is copied.  [fuel] bounds the scan; the length of the text
    is enough. *)
Fixpoint sub_wrap (opening closing query : string) (fuel : nat) (text : string)
  : string :=
  match fuel with
  | 0 => text
  | S f =>
      match text with
      | EmptyString => EmptyString
      | String c rest =>
          if match_at query text then
            (opening ++ PyStr.slice_to (String.length query) text ++ closing
             ++ sub_wrap opening closing query f
                  (slice_from (String.length query) text))%string
          else String c (sub_wrap opening closing query f rest)
      end
  end.

Definition highlight_with (opening closing text query : string) : string :=
  if negb (PyStr.truthy query) || (String.length query <? 2) then text
  else sub_wrap opening closing query (String.length text) text.

Definition highlight_text (text query : string) : string :=
  highlight_with mark_open mark_close text query.

End Highlight.

(** ** [get_cached_suggestions] *)

Record level_cfg : Type := {
  code : row -> string;
  name : row -> string;
  search : row -> string
}.

Definition config (level : string) : option level_cfg :=
  if String.eqb level "prov" then
    Some {| code := kode_prov; name := nama_prov; search := _search_prov |}
  else if String.eqb level "kabupaten" then
    Some {| code := kode_kab; name := kab_nama; search := _search_kab |}
  else if String.eqb level "kecamatan" then
    Some {| code := kode_kec; name := kec_nama; search := _search_kec |}
  else if String.eqb level "desa" then
    Some {| code := kode_desa; name := desa_nama; search := _search_desa |}
  else None.

(** The three ancestor selections at the head of the function. *)
Definition narrow (df : frame) (prov kab kec : string) : frame :=
  let subset := df in
  let subset :=
    if PyStr.truthy prov then filter (fun x => String.eqb (kode_prov x) prov) subset
    else subset in
  let subset :=
    if PyStr.truthy kab then filter (fun x => String.eqb (kode_kab x) kab) subset
    else subset in
  let subset :=
    if PyStr.truthy kec then filter (fun x => String.eqb (kode_kec x) kec) subset
    else subset in
  subset.

(** The text selection on the stripped, lowercased query [q]. *)
Definition match_query (cfg : level_cfg) (q : string) (subset : frame)
  : outcome frame :=
  if PyStr.truthy q then
    if PyStr.isdigit q then str_contains (code cfg) q subset
    else if String.length q =? 1 then
      Ret (filter (fun x => PyStr.startswith q (search cfg x)) subset)
    else str_contains (search cfg) q subset
  else Ret subset.

(** [subset[[col_code, col_name]].drop_duplicates().sort_values(col_code)
    .head(20).to_dict(orient="records")] *)
Definition records (cfg : level_cfg) (subset : frame) : list (string * string) :=
  firstn 20
    (sort_values
       (drop_duplicates pair_key (map (fun x => (code cfg x, name cfg x)) subset))).

(** The global [df_master] is assigned once, by the [load_data] call at
    import, before any request; it is a parameter here, and [lru_cache]
    then only memoises a function of the arguments. *)
Definition get_cached_suggestions (df_master : frame)
    (level query prov kab kec : string) : outcome (list (string * string)) :=
  if empty df_master then Ret []
  else
    let subset := narrow df_master prov kab kec in
    if empty subset then Ret []
    else
      match config level with
      | None => Ret []
      | Some cfg =>
          let q := PyStr.lower (PyStr.strip query) in
          subset <- match_query cfg q subset ;;
          Ret (records cfg subset)
      end.

(** [api_get_suggestions]: the list of (kode, nama) it puts in the JSON
    response. *)
Definition api_get_suggestions (df_master : frame)
    (level query prov kabupaten kecamatan : string)
  : outcome (list (string * string)) :=
  if negb (existsb (String.eqb level) ["prov"; "kabupaten"; "kecamatan"; "desa"])
  then Ret []
  else get_cached_suggestions df_master level query prov kabupaten kecamatan.

(** ** [api_search_table] *)

Definition apply_filter (df : frame) (val : string) (is_exact : bool)
    (col_code col_search : row -> string) (code_len : nat) : outcome frame :=
  if negb (PyStr.truthy val) then Ret df
  else
    let val := PyStr.slice_to 50 val in
    if PyStr.isdigit val && (String.length val =? code_len)
    then Ret (filter (fun x => String.eqb (col_code x) val) df)
    else
      let val_lower := PyStr.lower val in
      if is_exact then Ret (filter (fun x => String.eqb (col_search x) val_lower) df)
      else str_contains col_search val_lower df.

(** What the function hands to the page.  The table is kept as data: the
    view level, [total_found], the rows that are rendered (each shows the
    columns up to the view level) and whether the [info_limit] banner
    ("showing LIMIT of total_found") is part of the page.  Building the
    page does not raise: [highlight_text] passes its query through
    [re.escape] before it makes a pattern of it. *)
Inductive response : Type :=
| NoDataset                   (* "Database belum dimuat." *)
| AwaitingInput               (* "Menunggu Pencarian" *)
| NoMatches                   (* "Data tidak ditemukan." *)
| Table (view_level total_found : nat) (rows : frame) (info_limit : bool).

Definition LIMIT : nat := 100.

(** The four [apply_filter] calls, each on the result of the one before. *)
Definition filter_levels (df : frame)
    (prov : string) (prov_exact : bool) (kab : string) (kab_exact : bool)
    (kec : string) (kec_exact : bool) (desa : string) (desa_exact : bool)
  : outcome frame :=
  subset <- apply_filter df prov prov_exact kode_prov _search_prov 2 ;;
  subset <- apply_filter subset kab kab_exact kode_kab _search_kab 2 ;;
  subset <- apply_filter subset kec kec_exact kode_kec _search_kec 3 ;;
  apply_filter subset desa desa_exact kode_desa _search_desa 3.

Definition decide_view_level (prov kab kec desa : string) (expand : bool) : nat :=
  let view_level :=
    if negb (PyStr.truthy desa) then
      if PyStr.truthy kec then 3
      else if PyStr.truthy kab then 2
      else if PyStr.truthy prov then 1
      else 4
    else 4 in
  if expand && (view_level <? 4) then view_level + 1 else view_level.

(** The [if view_level == 1 ... elif ... == 3] chain: there is no branch
    for view level 4. *)
Definition dedup_view (view_level : nat) (subset : frame) : frame :=
  if view_level =? 1 then drop_duplicates (subset_key [kode_prov]) subset
  else if view_level =? 2 then drop_duplicates (subset_key [kode_prov; kode_kab]) subset
  else if view_level =? 3 then
    drop_duplicates (subset_key [kode_prov; kode_kab; kode_kec]) subset
  else subset.

Definition api_search_table (df_master : frame)
    (prov : string) (prov_exact : bool) (kab : string) (kab_exact : bool)
    (kec : string) (kec_exact : bool) (desa : string) (desa_exact : bool)
    (expand : bool) : outcome response :=
  if empty df_master then Ret NoDataset
  else if negb (existsb PyStr.truthy [prov; kab; kec; desa]) then Ret AwaitingInput
  else
    subset <- filter_levels df_master prov prov_exact kab kab_exact
                kec kec_exact desa desa_exact ;;
    if empty subset then Ret NoMatches
    else
      let view_level := decide_view_level prov kab kec desa expand in
      let subset := dedup_view view_level subset in
      let total_found := List.length subset in
      let subset := firstn LIMIT subset in
      Ret (Table view_level total_found subset (LIMIT <? total_found)).

(** ** Vocabulary of the statements *)

(** The four call sites of [apply_filter]. *)
Inductive level : Type := LProv | LKab | LKec | LDesa.

Definition level_code (lv : level) : row -> string :=
  match lv with
  | LProv => kode_prov | LKab => kode_kab | LKec => kode_kec | LDesa => kode_desa
  end.

Definition level_search (lv : level) : row -> string :=
  match lv with
  | LProv => _search_prov | LKab => _search_kab
  | LKec => _search_kec | LDesa => _search_desa
  end.

Definition level_width (lv : level) : nat :=
  match lv with
  | LProv => 2 | LKab => 2 | LKec => 3 | LDesa => 3
  end.

Definition filter_at (lv : level) (df : frame) (val : string) (is_exact : bool)
  : outcome frame :=
  apply_filter df val is_exact (level_code lv) (level_search lv) (level_width lv).

(** The name column a level shows. *)
Definition level_name (lv : level) : row -> string :=
  match lv with
  | LProv => nama_prov | LKab => kab_nama | LKec => kec_nama | LDesa => desa_nama
  end.

(** A result-table call with one input, at level [lv], and the three
    others left empty. *)
Definition search_one (df : frame) (lv : level) (val : string)
    (is_exact expand : bool) : outcome response :=
  match lv with
  | LProv => api_search_table df val is_exact "" false "" false "" false expand
  | LKab => api_search_table df "" false val is_exact "" false "" false expand
  | LKec => api_search_table df "" false "" false val is_exact "" false expand
  | LDesa => api_search_table df "" false "" false "" false val is_exact expand
  end.

Definition level_number (lv : level) : nat :=
  match lv with
  | LProv => 1 | LKab => 2 | LKec => 3 | LDesa => 4
  end.

(** The codes from the province down to the view level. *)
Definition composite_key (view_level : nat) : row -> list string :=
  subset_key (firstn view_level [kode_prov; kode_kab; kode_kec; kode_desa]).

(** The boolean test [narrow] amounts to. *)
Definition anc_okb (prov kab kec : string) (x : row) : bool :=
  (negb (PyStr.truthy prov) || String.eqb (kode_prov x) prov)
  && (negb (PyStr.truthy kab) || String.eqb (kode_kab x) kab)
  && (negb (PyStr.truthy kec) || String.eqb (kode_kec x) kec).

(** Each supplied code must be the row's code; the empty string asks for
    nothing. *)
Definition anc_ok (prov kab kec : string) (x : row) : Prop :=
  (prov = "" \/ kode_prov x = prov)
  /\ (kab = "" \/ kode_kab x = kab)
  /\ (kec = "" \/ kode_kec x = kec).

(** Ascending by code, as Python orders [str]. *)
Definition code_le (p q : string * string) : Prop :=
  String.leb (fst p) (fst q) = true.

(** What [load_data] makes of one code cell: the cell, stripped, then
    padded to at least [width]; exactly [width] digits when the stripped
    cell is made of digits and is not longer than [width]. *)
Definition padded (width : nat) (cell : option string) (out : string) : Prop :=
  out = PyStr.zfill width (PyStr.strip (fillna cell))
  /\ width <= String.length out
  /\ (PyStr.all_chars PyStr.isdigit_char (PyStr.strip (fillna cell)) = true ->
      String.length (PyStr.strip (fillna cell)) <= width ->
      String.length out = width /\ PyStr.isdigit out = true).

(** What the input of one level asks of a row, as [apply_filter] reads
    it: nothing when it is empty; otherwise, on its first 50 characters,
    the code when they are digits of the level's width, the lowercase
    name when the exact flag is set, a match of the compiled pattern in
    the lowercase name when it is not. *)
Definition level_holds (lv : level) (val : string) (is_exact : bool) (x : row)
  : Prop :=
  val = "" \/
  let v := PyStr.slice_to 50 val in
  if PyStr.isdigit v && (String.length v =? level_width lv)
  then level_code lv x = v
  else if is_exact then level_search lv x = PyStr.lower v
  else exists r, Re.compile (PyStr.lower v) = Ret r
                 /\ Re.search r (level_search lv x) = true.

(** The four levels together. *)
Definition all_levels_hold prov pe kab ke kec kce desa de (x : row) : Prop :=
  level_holds LProv prov pe x /\ level_holds LKab kab ke x
  /\ level_holds LKec kec kce x /\ level_holds LDesa desa de x.

(** What a query without special characters, already stripped and
    lowercased, asks of a row at one level: digits are looked for in the
    code, one other character begins the lowercase name, several are
    somewhere in it. *)
Definition query_holds (cfg : level_cfg) (q : string) (x : row) : bool :=
  if PyStr.truthy q then
    if PyStr.isdigit q then PyStr.contains q (code cfg x)
    else if String.length q =? 1 then PyStr.startswith q (search cfg x)
    else PyStr.contains q (search cfg x)
  else true.

(** A string with no blank in front. *)
Definition head_ok (s : string) : Prop :=
  match s with
  | EmptyString => True
  | String c _ => PyStr.isspace_char c = false
  end.

(** An input that cannot reach an invalid pattern: it is compared for
    equality, or it has no special character. *)
Definition safe_input (val : string) (is_exact : bool) : bool :=
  is_exact || Re.plain val.

(** ** A small data set for the worked examples *)

Module Sample.

Definition line (kp np kk nk kc nc kd nd : string) : raw_row := {|
  raw_kode_prov := Some kp;  raw_nama_prov := Some np;
  raw_kode_kab  := Some kk;  raw_kab_nama  := Some nk;
  raw_kode_kec  := Some kc;  raw_kec_nama  := Some nc;
  raw_kode_desa := Some kd;  raw_desa_nama := Some nd
|}.

Definition master : list raw_row := [
  line "31" "DKI JAKARTA" "1"  "JAKARTA SELATAN" "10" "KEBAYORAN BARU" "1" "SELONG";
  line "31" "DKI JAKARTA" "1"  "JAKARTA SELATAN" "10" "KEBAYORAN BARU" "2" "GUNUNG";
  line "32" "JAWA BARAT"  "1"  "BOGOR"           "10" "NANGGUNG"       "1" "MALASARI";
  line "32" "JAWA BARAT"  "79" "BANJAR"          "10" "BANJAR"         "1" "BANJAR"
].

Definition df : frame := load_data (Some master).

End Sample.

(** ** Further data sets for the worked examples *)

Module ZonaData.

(** A frame whose one province name holds a digit. *)
Definition df : frame :=
  load_data (Some [Sample.line "91" "ZONA 3" "1" "KOTA" "1" "TENGAH" "1" "SATU"]).

End ZonaData.

Module BigData.

Definition digit (n : nat) : ascii := ascii_of_nat (48 + n mod 10).

Definition code3 (n : nat) : string :=
  String (digit (n / 100)) (String (digit (n / 10)) (String (digit n) "")).

(** 150 villages of one district. *)
Definition df : frame :=
  load_data
    (Some (map (fun n => Sample.line "31" "DKI JAKARTA" "71" "JAKARTA PUSAT"
                           "10" "GAMBIR" (code3 n) "DESA UJI")
               (seq 1 150))).

End BigData.

Module DupData.

(** A source in which one village line occurs twice. *)
Definition village : raw_row :=
  Sample.line "31" "DKI JAKARTA" "1" "JAKARTA SELATAN" "10" "KEBAYORAN BARU"
    "1" "SELONG".

Definition df : frame := load_data (Some [village; village]).

End DupData.

Module OddData.

(** A source whose codes are too long or are not numbers. *)
Definition df : frame :=
  load_data (Some [Sample.line "123" "PROVINSI" "AB" "KABUPATEN"
                     "1234" "KECAMATAN" "-7" "DESA"]).

End OddData.

(** * Properties *)

(** ** A pattern without special characters is searched literally *)

Module ReFacts.
Import Re.

Lemma special_false (c : ascii) :
  is_special c = false ->
  is_repeat c = false /\ is_unmodelled c = false /\ Ascii.eqb c "." = false
  /\ Ascii.eqb c "\" = false /\ Ascii.eqb c "|" = false
  /\ Ascii.eqb c "(" = false /\ Ascii.eqb c ")" = false.
Proof.
  unfold is_special. intros H.
  do 6 (apply orb_false_elim in H; destruct H as [H ?]).
  repeat split; assumption.
Qed.

Lemma with_repeat_plain (r : regex) (rest : string) :
  plain rest = true -> with_repeat r rest = POk r rest.
Proof.
  destruct rest as [|q rest']; simpl; [reflexivity|].
  intros H. apply andb_prop in H. destruct H as [Hq _].
  apply negb_true_iff in Hq. apply special_false in Hq.
  destruct Hq as [Hq _]. rewrite Hq. reflexivity.
Qed.

Lemma parse_seq_plain (p : string) :
  plain p = true ->
  forall fuel, String.length p < fuel -> parse_seq fuel p = POk (lit p) "".
Proof.
  induction p as [|c p IH]; intros Hp fuel Hf.
  - destruct fuel; [lia | reflexivity].
  - destruct fuel as [|f]; [lia|].
    simpl in Hp. apply andb_prop in Hp. destruct Hp as [Hc Hp].
    apply negb_true_iff in Hc. apply special_false in Hc.
    destruct Hc as (Hr & Hu & Hdot & Hbs & Hbar & Hop & Hcl).
    cbn [parse_seq]. rewrite Hbar, Hcl, Hr, Hu, Hop, Hbs, Hdot. cbn [orb].
    rewrite (with_repeat_plain _ _ Hp).
    rewrite (IH Hp f) by (simpl in Hf; lia). reflexivity.
Qed.

Lemma compile_plain (p : string) :
  plain p = true -> compile p = Ret (lit p).
Proof.
  intros Hp. unfold compile.
  replace (2 * String.length p + 2) with (S (2 * String.length p + 1)) by lia.
  cbn [parse_alt]. rewrite (parse_seq_plain p Hp) by lia. reflexivity.
Qed.

Lemma alt_none_r (r : regex) : alt r RNone = r.
Proof. destruct r; reflexivity. Qed.

Lemma match_here_none (s : string) : match_here RNone s = false.
Proof. induction s as [|c s IH]; simpl; [reflexivity | exact IH]. Qed.

Lemma seq_eps_lit (p : string) : seq REps (lit p) = lit p.
Proof. destruct p; reflexivity. Qed.

Lemma match_here_lit (p s : string) : match_here (lit p) s = String.prefix p s.
Proof.
  revert s. induction p as [|a p IH]; intros s.
  - destruct s; reflexivity.
  - destruct s as [|c s]; [reflexivity|].
    cbn [match_here lit nullable deriv andb orb String.prefix].
    rewrite alt_none_r.
    destruct (ascii_dec a c) as [->|Hne].
    + rewrite Ascii.eqb_refl, seq_eps_lit. apply IH.
    + apply Ascii.eqb_neq in Hne. rewrite Hne. cbn [seq].
      apply match_here_none.
Qed.

Lemma search_lit (p s : string) : search (lit p) s = PyStr.contains p s.
Proof.
  induction s as [|c s IH].
  - cbn [search PyStr.contains]. rewrite match_here_lit. reflexivity.
  - cbn [search PyStr.contains]. rewrite match_here_lit, IH. reflexivity.
Qed.

End ReFacts.

(** On a pattern without special characters [str.contains] selects the
    rows whose cell contains the pattern as a substring, and returns. *)
Lemma str_contains_plain (col : row -> string) (pat : string) (df : frame) :
  Re.plain pat = true ->
  str_contains col pat df = Ret (filter (fun x => PyStr.contains pat (col x)) df).
Proof.
  intros Hp. unfold str_contains. rewrite (ReFacts.compile_plain pat Hp).
  cbn [bind]. f_equal. apply filter_ext. intros x. apply ReFacts.search_lit.
Qed.

(** ** Facts about the [str] methods *)

Module PyStrFacts.
Import PyStr.

Lemma isdigit_truthy (s : string) : isdigit s = true -> truthy s = true.
Proof. destruct s; [discriminate | reflexivity]. Qed.

Lemma isdigit_all (s : string) : isdigit s = true -> all_chars isdigit_char s = true.
Proof. destruct s; [discriminate | trivial]. Qed.

Lemma all_chars_impl (p q : ascii -> bool) (s : string) :
  (forall c, p c = true -> q c = true) ->
  all_chars p s = true -> all_chars q s = true.
Proof.
  intros Hpq. induction s as [|c s IH]; simpl; [trivial|].
  intros H. apply andb_prop in H. destruct H as [Hc Hs].
  rewrite (Hpq c Hc), (IH Hs). reflexivity.
Qed.

Lemma digit_not_special (c : ascii) :
  isdigit_char c = true -> negb (Re.is_special c) = true.
Proof.
  destruct c as [[] [] [] [] [] [] [] []]; intros H;
    solve [ reflexivity | discriminate H ].
Qed.

Lemma digit_lower (c : ascii) : isdigit_char c = true -> lower_char c = c.
Proof.
  destruct c as [[] [] [] [] [] [] [] []]; intros H;
    solve [ reflexivity | discriminate H ].
Qed.

Lemma isdigit_plain (s : string) : isdigit s = true -> Re.plain s = true.
Proof.
  intros H. apply isdigit_all in H. unfold Re.plain.
  exact (all_chars_impl _ _ s digit_not_special H).
Qed.

Lemma isdigit_lower (s : string) : isdigit s = true -> lower s = s.
Proof.
  intros H. apply isdigit_all in H.
  induction s as [|c s IH]; [reflexivity|].
  simpl in H. apply andb_prop in H. destruct H as [Hc Hs].
  simpl. rewrite (digit_lower c Hc), (IH Hs). reflexivity.
Qed.

Lemma slice_to_length (n : nat) (s : string) :
  String.length (slice_to n s) = Nat.min n (String.length s).
Proof.
  unfold slice_to. revert s. induction n as [|n IH]; intros s.
  - destruct s; reflexivity.
  - destruct s as [|c s]; [reflexivity|]. simpl. rewrite IH. reflexivity.
Qed.

Lemma slice_to_short (n : nat) (s : string) :
  String.length s <= n -> slice_to n s = s.
Proof.
  unfold slice_to. revert s. induction n as [|n IH]; intros s Hs.
  - destruct s; [reflexivity | simpl in Hs; lia].
  - destruct s as [|c s]; [reflexivity|]. simpl in *. rewrite IH by lia. reflexivity.
Qed.

Lemma slice_to_all (p : ascii -> bool) (n : nat) (s : string) :
  all_chars p s = true -> all_chars p (slice_to n s) = true.
Proof.
  unfold slice_to. revert s. induction n as [|n IH]; intros s H.
  - destruct s; reflexivity.
  - destruct s as [|c s]; [reflexivity|].
    simpl in *. apply andb_prop in H. destruct H as [Hc Hs].
    rewrite Hc, (IH s Hs). reflexivity.
Qed.

Lemma slice_to_isdigit (n : nat) (s : string) :
  isdigit s = true -> isdigit (slice_to (S n) s) = true.
Proof.
  intros H. pose proof (slice_to_all isdigit_char (S n) s (isdigit_all s H)) as Ha.
  destruct s as [|c s]; [discriminate H|]. exact Ha.
Qed.

Lemma slice_to_idem (n : nat) (s : string) :
  slice_to n (slice_to n s) = slice_to n s.
Proof.
  apply slice_to_short. rewrite slice_to_length. apply Nat.le_min_l.
Qed.

Lemma slice_to_truthy (n : nat) (s : string) :
  truthy (slice_to (S n) s) = truthy s.
Proof. destruct s; reflexivity. Qed.

Lemma prefix_refl (s : string) : String.prefix s s = true.
Proof.
  induction s as [|c s IH]; [reflexivity|].
  simpl. destruct (ascii_dec c c); [exact IH | congruence].
Qed.

Lemma contains_refl (s : string) : contains s s = true.
Proof.
  destruct s as [|c s]; [reflexivity|].
  cbn [contains]. rewrite prefix_refl. reflexivity.
Qed.

End PyStrFacts.

(** ** The result-table filter, level by level *)

Lemma filter_levels_at df prov pe kab ke kec kce desa de :
  filter_levels df prov pe kab ke kec kce desa de =
  (s1 <- filter_at LProv df prov pe ;;
   s2 <- filter_at LKab s1 kab ke ;;
   s3 <- filter_at LKec s2 kec kce ;;
   filter_at LDesa s3 desa de).
Proof. reflexivity. Qed.

Lemma level_width_small (lv : level) : level_width lv <= 3.
Proof. destruct lv; simpl; lia. Qed.

(** The input is cut to 50 characters before anything looks at it. *)
Lemma apply_filter_slice df val is_exact col_code col_search code_len :
  apply_filter df val is_exact col_code col_search code_len =
  apply_filter df (PyStr.slice_to 50 val) is_exact col_code col_search code_len.
Proof.
  unfold apply_filter.
  rewrite PyStrFacts.slice_to_truthy, PyStrFacts.slice_to_idem. reflexivity.
Qed.

(** With the exact flag set, an all-digit input of another width is
    compared with the lowercase name for equality: ["3"] at province
    level selects no row of a frame whose province name is ["zona 3"]. *)
Lemma apply_filter_digit_exact_equality :
  PyStr.isdigit "3" = true /\ String.length "3" <> level_width LProv /\
  filter_at LProv ZonaData.df "3" true = Ret [] /\
  filter (fun x => PyStr.contains "3" (_search_prov x)) ZonaData.df <> [].
Proof.
  split; [reflexivity|]. split; [simpl; lia|]. split; [reflexivity|].
  vm_compute. discriminate.
Qed.

(** An all-digit input under both values of the exact flag: of the
    level's width it selects by code; of another width, cut to 50
    characters, it is matched against the lowercase name column, as a
    substring when the flag is off and for equality when it is on. *)
Lemma apply_filter_digit_input (lv : level) (df : frame) (val : string)
    (is_exact : bool) :
  PyStr.isdigit val = true ->
  (String.length val = level_width lv ->
   filter_at lv df val is_exact =
   Ret (filter (fun x => String.eqb (level_code lv x) val) df))
  /\
  (String.length val <> level_width lv ->
   let v := PyStr.slice_to 50 val in
   filter_at lv df val is_exact =
   Ret (filter (fun x => if is_exact then String.eqb (level_search lv x) v
                         else PyStr.contains v (level_search lv x)) df)
   /\ forall sel x, filter_at lv df val is_exact = Ret sel -> In x sel ->
        PyStr.contains v (level_search lv x) = true).
Proof.
  intros Hd. pose proof (level_width_small lv) as Hw. split.
  - intros Hlen. unfold filter_at, apply_filter.
    rewrite (PyStrFacts.isdigit_truthy val Hd). cbn [negb].
    rewrite (PyStrFacts.slice_to_short 50 val) by lia.
    rewrite Hd, Hlen, Nat.eqb_refl. reflexivity.
  - intros Hlen v.
    assert (Hv : PyStr.isdigit v = true) by (apply PyStrFacts.slice_to_isdigit; exact Hd).
    assert (Hne : (String.length v =? level_width lv) = false).
    { apply Nat.eqb_neq. unfold v. rewrite PyStrFacts.slice_to_length. lia. }
    assert (Heq : filter_at lv df val is_exact =
                  Ret (filter (fun x => if is_exact then String.eqb (level_search lv x) v
                                        else PyStr.contains v (level_search lv x)) df)).
    { unfold filter_at, apply_filter.
      rewrite (PyStrFacts.isdigit_truthy val Hd). cbn [negb]. fold v.
      rewrite Hv, Hne. cbn [andb]. rewrite (PyStrFacts.isdigit_lower v Hv).
      destruct is_exact; [reflexivity|].
      apply str_contains_plain, PyStrFacts.isdigit_plain, Hv. }
    split; [exact Heq|].
    intros sel x Hsel Hin. rewrite Heq in Hsel. injection Hsel as <-.
    apply filter_In in Hin. destruct Hin as [_ Hx].
    destruct is_exact; [|exact Hx].
    apply String.eqb_eq in Hx. rewrite Hx. apply PyStrFacts.contains_refl.
Qed.

Lemma filter_all_false {B : Type} (p : B -> bool) (l : list B) :
  (forall y, In y l -> p y = false) -> filter p l = [].
Proof.
  induction l as [|a l IH]; simpl; intros H; [reflexivity|].
  rewrite (H a) by auto. apply IH. auto.
Qed.

(** C1: in the result-table filter, for every level, an input made of
    digits whose length is the level's code width selects the rows whose
    code equals it, whatever the exact flag; an all-digit input of
    another width, with the exact flag off, selects the rows whose
    lowercase name contains it as a substring (the first 50 characters
    of it, which is all of it up to that length), and so returns no row
    unless a name contains those digits. *)
Theorem apply_filter_digit_claim (lv : level) (df : frame) (val : string)
    (is_exact : bool) :
  PyStr.isdigit val = true ->
  (String.length val = level_width lv ->
   filter_at lv df val is_exact =
   Ret (filter (fun x => String.eqb (level_code lv x) val) df))
  /\
  (String.length val <> level_width lv ->
   filter_at lv df val false =
   Ret (filter (fun x => PyStr.contains (PyStr.slice_to 50 val) (level_search lv x))
          df)
   /\ (String.length val <= 50 ->
       filter_at lv df val false =
       Ret (filter (fun x => PyStr.contains val (level_search lv x)) df))
   /\ ((forall x, In x df ->
          PyStr.contains (PyStr.slice_to 50 val) (level_search lv x) = false) ->
       filter_at lv df val false = Ret [])).
Proof.
  intros Hd. split.
  - exact (proj1 (apply_filter_digit_input lv df val is_exact Hd)).
  - intros Hlen.
    destruct (proj2 (apply_filter_digit_input lv df val false Hd) Hlen)
      as [Heq _].
    cbv zeta in Heq.
    split; [exact Heq|]. split.
    + intros Hshort. rewrite Heq.
      rewrite (PyStrFacts.slice_to_short 50 val Hshort). reflexivity.
    + intros Hnone. rewrite Heq. f_equal. apply filter_all_false. exact Hnone.
Qed.

Lemma apply_filter_digit_claim_witness :
  filter_at LKab Sample.df "01" false =
    Ret (filter (fun x => String.eqb (kode_kab x) "01") Sample.df)
  /\ filter_at LProv ZonaData.df "3" false =
    Ret (filter (fun x => PyStr.contains "3" (_search_prov x)) ZonaData.df)
  /\ filter_at LProv Sample.df "3" false = Ret [].
Proof.
  split; [|split].
  - apply (proj1 (apply_filter_digit_claim LKab Sample.df "01" false eq_refl)).
    reflexivity.
  - refine (proj1 (proj2 (proj2 (apply_filter_digit_claim LProv ZonaData.df "3"
                                   false eq_refl) _)) _); simpl; lia.
  - refine (proj2 (proj2 (proj2 (apply_filter_digit_claim LProv Sample.df "3"
                                   false eq_refl) _)) _).
    + simpl. lia.
    + simpl. intros x [<-|[<-|[<-|[<-|[]]]]]; reflexivity.
Defined.

(** ** The view projector: total, limit and banner *)

Lemma apply_filter_nil val is_exact col_code col_search code_len sel :
  apply_filter [] val is_exact col_code col_search code_len = Ret sel -> sel = [].
Proof.
  unfold apply_filter, str_contains.
  destruct (negb (PyStr.truthy val)); [congruence|].
  destruct (PyStr.isdigit _ && _); [simpl; congruence|].
  destruct is_exact; [simpl; congruence|].
  destruct (Re.compile _); simpl; congruence.
Qed.

Lemma filter_levels_nil prov pe kab ke kec kce desa de sel :
  filter_levels [] prov pe kab ke kec kce desa de = Ret sel -> sel = [].
Proof.
  unfold filter_levels.
  destruct (apply_filter [] prov _ _ _ _) as [s1| |] eqn:E1; try discriminate.
  apply apply_filter_nil in E1. subst s1. cbn [bind].
  destruct (apply_filter [] kab _ _ _ _) as [s2| |] eqn:E2; try discriminate.
  apply apply_filter_nil in E2. subst s2. cbn [bind].
  destruct (apply_filter [] kec _ _ _ _) as [s3| |] eqn:E3; try discriminate.
  apply apply_filter_nil in E3. subst s3. cbn [bind].
  apply apply_filter_nil.
Qed.

(** Once the filter has returned a non-empty selection, the call returns
    a table built from it. *)
Lemma api_search_table_table df prov pe kab ke kec kce desa de expand subset :
  existsb PyStr.truthy [prov; kab; kec; desa] = true ->
  filter_levels df prov pe kab ke kec kce desa de = Ret subset ->
  empty subset = false ->
  let view_level := decide_view_level prov kab kec desa expand in
  let full := dedup_view view_level subset in
  api_search_table df prov pe kab ke kec kce desa de expand =
  Ret (Table view_level (List.length full) (firstn LIMIT full)
         (LIMIT <? List.length full)).
Proof.
  intros Hany Hf Hne view_level full. unfold api_search_table.
  destruct df as [|x df].
  - apply filter_levels_nil in Hf. subst subset. discriminate Hne.
  - cbn [empty]. rewrite Hany. cbn [negb]. rewrite Hf. cbn [bind].
    rewrite Hne. reflexivity.
Qed.

(** C2: when the filter selects something, the call returns a table whose
    total is the number of rows after deduplication and before the cut,
    whose rows are the first 100 of them, and whose banner is there
    exactly when the total exceeds 100; a total of 150 gives exactly 100
    rows and the banner. *)
Theorem api_search_table_limit df prov pe kab ke kec kce desa de expand subset :
  existsb PyStr.truthy [prov; kab; kec; desa] = true ->
  filter_levels df prov pe kab ke kec kce desa de = Ret subset ->
  empty subset = false ->
  let view_level := decide_view_level prov kab kec desa expand in
  let full := dedup_view view_level subset in
  let total := List.length full in
  exists rows info,
    api_search_table df prov pe kab ke kec kce desa de expand =
      Ret (Table view_level total rows info)
    /\ rows = firstn 100 full
    /\ List.length rows = Nat.min 100 total
    /\ List.length rows <= 100
    /\ (info = true <-> 100 < total)
    /\ (total = 150 -> List.length rows = 100 /\ info = true).
Proof.
  intros Hany Hf Hne view_level full total.
  exists (firstn LIMIT full), (LIMIT <? total).
  split; [exact (api_search_table_table df prov pe kab ke kec kce desa de expand
                   subset Hany Hf Hne)|].
  unfold LIMIT. split; [reflexivity|].
  assert (Hlen : List.length (firstn 100 full) = Nat.min 100 total)
    by apply length_firstn.
  split; [exact Hlen|]. split; [rewrite Hlen; apply Nat.le_min_l|].
  split; [apply Nat.ltb_lt|].
  intros H150. rewrite Hlen, H150. split; reflexivity.
Qed.

Lemma api_search_table_limit_witness :
  exists rows info,
    api_search_table BigData.df "31" false "" false "" false "desa" false false =
      Ret (Table 4 150 rows info)
    /\ rows = firstn 100 BigData.df
    /\ List.length rows = Nat.min 100 150
    /\ List.length rows <= 100
    /\ (info = true <-> 100 < 150)
    /\ (150 = 150 -> List.length rows = 100 /\ info = true).
Proof.
  exact (api_search_table_limit BigData.df "31" false "" false "" false "desa"
           false false BigData.df eq_refl
           ltac:(vm_compute; reflexivity) eq_refl).
Defined.

(** ** Deduplication *)

Section DropDuplicates.

Context {A : Type} (key : A -> list string).

Lemma key_eqb_eq (k1 k2 : list string) : key_eqb k1 k2 = true <-> k1 = k2.
Proof.
  unfold key_eqb. destruct (list_eq_dec string_dec k1 k2); split;
    intros; congruence.
Qed.

Lemma NoDup_map_filter (p : A -> bool) (l : list A) :
  NoDup (map key l) -> NoDup (map key (filter p l)).
Proof.
  induction l as [|x l IH]; simpl; intros H; [constructor|].
  inversion H as [|? ? Hnot Hnd]; subst.
  destruct (p x); [|auto]. simpl. constructor; [|auto].
  intros Hin. apply Hnot. apply in_map_iff in Hin.
  destruct Hin as [y [Hy Hin]]. apply filter_In in Hin.
  apply in_map_iff. exists y. tauto.
Qed.

Lemma drop_duplicates_In (l : list A) (x : A) :
  In x (drop_duplicates key l) -> In x l.
Proof.
  induction l as [|a l IH]; simpl; [tauto|].
  intros [->|Hin]; [auto|]. apply filter_In in Hin. right. tauto.
Qed.

Lemma drop_duplicates_NoDup (l : list A) :
  NoDup (map key (drop_duplicates key l)).
Proof.
  induction l as [|a l IH]; simpl; [constructor|].
  constructor.
  - intros Hin. apply in_map_iff in Hin. destruct Hin as [y [Hy Hin]].
    apply filter_In in Hin. destruct Hin as [_ Hneq].
    apply negb_true_iff in Hneq.
    assert (Heq : key_eqb (key y) (key a) = true) by (apply key_eqb_eq; exact Hy).
    congruence.
  - apply NoDup_map_filter, IH.
Qed.

Lemma drop_duplicates_keys (l : list A) (k : list string) :
  In k (map key l) <-> In k (map key (drop_duplicates key l)).
Proof.
  induction l as [|a l IH]; simpl; [tauto|].
  split.
  - intros [Hk|Hk]; [auto|].
    destruct (list_eq_dec string_dec (key a) k) as [Heq|Hne]; [auto|].
    right. apply IH in Hk. apply in_map_iff in Hk. destruct Hk as [y [Hy Hin]].
    apply in_map_iff. exists y. split; [exact Hy|].
    apply filter_In. split; [exact Hin|].
    apply negb_true_iff. destruct (key_eqb (key y) (key a)) eqn:E; [|reflexivity].
    apply key_eqb_eq in E. congruence.
  - intros [Hk|Hk]; [auto|]. right. apply IH.
    apply in_map_iff in Hk. destruct Hk as [y [Hy Hin]].
    apply filter_In in Hin. apply in_map_iff. exists y. tauto.
Qed.

Lemma filter_none (p : A -> bool) (l : list A) :
  (forall y, In y l -> p y = false) -> filter p l = [].
Proof.
  induction l as [|a l IH]; simpl; intros H; [reflexivity|].
  rewrite (H a) by auto. apply IH. auto.
Qed.

(** Rows that all carry the key of the first collapse to the first. *)
Lemma drop_duplicates_one_key (x : A) (l : list A) :
  (forall y, In y l -> key y = key x) -> drop_duplicates key (x :: l) = [x].
Proof.
  intros H. simpl. f_equal. apply filter_none.
  intros y Hy. apply drop_duplicates_In in Hy.
  apply negb_false_iff, key_eqb_eq, H, Hy.
Qed.

End DropDuplicates.

Lemma NoDup_firstn {B : Type} (n : nat) (l : list B) :
  NoDup l -> NoDup (firstn n l).
Proof.
  revert l. induction n as [|n IH]; intros l H; [constructor|].
  destruct l as [|b l]; [constructor|]. simpl.
  inversion H as [|? ? Hnot Hnd]; subst. constructor; [|auto].
  intros Hin. apply Hnot.
  rewrite <- (firstn_skipn n l). apply in_or_app. auto.
Qed.

Lemma dedup_view_drop (view_level : nat) (subset : frame) :
  1 <= view_level <= 3 ->
  dedup_view view_level subset = drop_duplicates (composite_key view_level) subset.
Proof.
  intros H. assert (Hc : view_level = 1 \/ view_level = 2 \/ view_level = 3) by lia.
  destruct Hc as [->|[->| ->]]; reflexivity.
Qed.

(** At view level 4 the chain has no branch: the rows pass as they are. *)
Lemma dedup_view_at_4 (subset : frame) : dedup_view 4 subset = subset.
Proof. reflexivity. Qed.

Lemma decide_view_level_range prov kab kec desa expand :
  1 <= decide_view_level prov kab kec desa expand <= 4.
Proof.
  unfold decide_view_level.
  destruct (PyStr.truthy desa), (PyStr.truthy kec), (PyStr.truthy kab),
    (PyStr.truthy prov), expand; simpl; lia.
Qed.

(** What a returned table is made of. *)
Lemma api_search_table_inv df prov pe kab ke kec kce desa de expand
    view_level total rows info :
  api_search_table df prov pe kab ke kec kce desa de expand =
    Ret (Table view_level total rows info) ->
  exists subset,
    filter_levels df prov pe kab ke kec kce desa de = Ret subset
    /\ empty subset = false
    /\ existsb PyStr.truthy [prov; kab; kec; desa] = true
    /\ view_level = decide_view_level prov kab kec desa expand
    /\ total = List.length (dedup_view view_level subset)
    /\ rows = firstn LIMIT (dedup_view view_level subset)
    /\ info = (LIMIT <? total).
Proof.
  unfold api_search_table. destruct (empty df); [discriminate|].
  destruct (existsb PyStr.truthy _) eqn:Hany; cbn [negb]; [|discriminate].
  destruct (filter_levels _ _ _ _ _ _ _ _ _) as [subset| |]; cbn [bind];
    try discriminate.
  destruct (empty subset) eqn:Hne; [discriminate|].
  intros H. injection H as <- <- <- <-. exists subset.
  repeat split; solve [assumption | reflexivity].
Qed.

(** C3, as stated, fails at view level 4: the chain that deduplicates has
    no branch for it, so two rows with the same four codes both reach
    the table. *)
Lemma dedup_view_level4_counterexample :
  exists rows,
    api_search_table DupData.df "" false "" false "" false "selong" false false =
      Ret (Table 4 2 rows false)
    /\ ~ NoDup (map (composite_key 4) rows).
Proof.
  exists DupData.df. split; [reflexivity|].
  intros H. inversion H as [|? ? Hnot _]; subst. apply Hnot. left. reflexivity.
Qed.

(** C3 (amended): at view levels 1 to 3 the projected rows are
    deduplicated on the composite key of the codes from the province down
    to the view level: no key occurs twice, every key of the selection is
    still there, no row is invented, and so it is for the rows of the
    table; at view level 2, rows that share (kode_prov, kode_kab)
    collapse to exactly one row, the first. *)
Theorem dedup_view_composite_key (view_level : nat) (subset : frame) :
  1 <= view_level <= 3 ->
  let out := dedup_view view_level subset in
  NoDup (map (composite_key view_level) out)
  /\ (forall k, In k (map (composite_key view_level) subset) <->
                In k (map (composite_key view_level) out))
  /\ (forall x, In x out -> In x subset)
  /\ (forall df prov pe kab ke kec kce desa de expand total rows info,
        api_search_table df prov pe kab ke kec kce desa de expand =
          Ret (Table view_level total rows info) ->
        NoDup (map (composite_key view_level) rows))
  /\ (view_level = 2 ->
      forall x rest, subset = x :: rest ->
        (forall y, In y rest ->
           kode_prov y = kode_prov x /\ kode_kab y = kode_kab x) ->
        out = [x]).
Proof.
  intros Hvl out. unfold out. rewrite (dedup_view_drop view_level subset Hvl).
  split; [apply drop_duplicates_NoDup|].
  split; [apply drop_duplicates_keys|].
  split; [apply drop_duplicates_In|].
  split.
  - intros df prov pe kab ke kec kce desa de expand total rows info Hret.
    apply api_search_table_inv in Hret.
    destruct Hret as (sel & _ & _ & _ & _ & _ & Hrows & _). subst rows.
    rewrite (dedup_view_drop view_level sel Hvl), <- firstn_map.
    apply NoDup_firstn, drop_duplicates_NoDup.
  - intros -> x rest -> Hshare. apply drop_duplicates_one_key.
    intros y Hy. destruct (Hshare y Hy) as [Hp Hk].
    unfold composite_key, subset_key. simpl. rewrite Hp, Hk. reflexivity.
Qed.

Lemma dedup_view_composite_key_witness :
  dedup_view 2 (firstn 2 Sample.df) = firstn 1 Sample.df.
Proof.
  refine (proj2 (proj2 (proj2 (proj2
            (dedup_view_composite_key 2 (firstn 2 Sample.df) _)))) eq_refl
            _ _ eq_refl _).
  - lia.
  - simpl. intros y [<-|[]]. split; reflexivity.
Defined.

(** ** Suggestions: the text selection *)

(** On a query without special characters [match_query] is what the
    specification describes: digits are searched in the code column, one
    other character is a prefix of the lowercase name, several are a
    substring of it. *)
Lemma match_query_plain (cfg : level_cfg) (q : string) (subset : frame) :
  Re.plain q = true ->
  match_query cfg q subset =
  Ret (if PyStr.truthy q then
         if PyStr.isdigit q then
           filter (fun x => PyStr.contains q (code cfg x)) subset
         else if String.length q =? 1 then
           filter (fun x => PyStr.startswith q (search cfg x)) subset
         else filter (fun x => PyStr.contains q (search cfg x)) subset
       else subset).
Proof.
  intros Hp. unfold match_query.
  destruct (PyStr.truthy q); [|reflexivity].
  destruct (PyStr.isdigit q); [apply str_contains_plain, Hp|].
  destruct (String.length q =? 1); [reflexivity|].
  apply str_contains_plain, Hp.
Qed.

(** C4, at the failing input: the one-character query ["j"] is a prefix
    test and keeps JAKARTA SELATAN only; the two-character query ["j."]
    is compiled as a regular expression, whose dot matches the [a] after
    each [j], so both JAKARTA SELATAN and BANJAR come back although no
    lowercase name contains the two characters ["j."]. *)
Theorem get_cached_suggestions_regex_query :
  get_cached_suggestions Sample.df "kabupaten" "j" "" "" "" =
    Ret [("01", "JAKARTA SELATAN")]
  /\ get_cached_suggestions Sample.df "kabupaten" "j." "" "" "" =
    Ret [("01", "JAKARTA SELATAN"); ("79", "BANJAR")]
  /\ filter (fun x => PyStr.contains "j." (_search_kab x)) Sample.df = [].
Proof. repeat split; reflexivity. Qed.

(** ** Suggestions: the ancestor scope *)

Lemma truthy_false (s : string) : PyStr.truthy s = false <-> s = "".
Proof. destruct s; simpl; split; congruence. Qed.

Lemma code_okb_spec (anc c : string) :
  negb (PyStr.truthy anc) || String.eqb c anc = true <-> anc = "" \/ c = anc.
Proof.
  rewrite orb_true_iff, negb_true_iff, truthy_false, String.eqb_eq. tauto.
Qed.

Lemma anc_okb_spec prov kab kec x :
  anc_okb prov kab kec x = true <-> anc_ok prov kab kec x.
Proof.
  unfold anc_okb, anc_ok. rewrite !andb_true_iff, !code_okb_spec. tauto.
Qed.

Lemma filter_filter {B : Type} (p q : B -> bool) (l : list B) :
  filter q (filter p l) = filter (fun x => p x && q x) l.
Proof.
  induction l as [|x l IH]; simpl; [reflexivity|].
  destruct (p x); simpl; [|exact IH].
  destruct (q x); rewrite IH; reflexivity.
Qed.

Lemma filter_true {B : Type} (l : list B) : filter (fun _ => true) l = l.
Proof. induction l as [|x l IH]; simpl; [|rewrite IH]; reflexivity. Qed.

Lemma filter_opt {B : Type} (b : bool) (p : B -> bool) (l : list B) :
  (if b then filter p l else l) = filter (fun x => negb b || p x) l.
Proof. destruct b; simpl; [reflexivity | symmetry; apply filter_true]. Qed.

(** The three selections are one selection on the three codes. *)
Lemma narrow_filter df prov kab kec :
  narrow df prov kab kec = filter (anc_okb prov kab kec) df.
Proof.
  unfold narrow. rewrite !filter_opt, !filter_filter.
  apply filter_ext. intros x. unfold anc_okb. rewrite andb_assoc. reflexivity.
Qed.

Lemma narrow_In df prov kab kec x :
  In x (narrow df prov kab kec) <-> In x df /\ anc_ok prov kab kec x.
Proof. rewrite narrow_filter, filter_In, anc_okb_spec. tauto. Qed.

Lemma narrow_no_codes df : narrow df "" "" "" = df.
Proof. reflexivity. Qed.

(** ** Suggestions: the records returned *)

Lemma string_leb_spec (a b : string) :
  String.leb a b = true <-> a = b \/ OrderedTypeEx.String_as_OT.lt a b.
Proof.
  unfold String.leb.
  pose proof (OrderedTypeEx.String_as_OT.cmp_eq a b) as Heq.
  pose proof (OrderedTypeEx.String_as_OT.cmp_lt a b) as Hlt.
  unfold OrderedTypeEx.String_as_OT.cmp in *.
  destruct (String.compare a b); split; intros H; try tauto; try discriminate.
  destruct H as [H|H]; [apply Heq in H | apply Hlt in H]; discriminate.
Qed.

Lemma string_leb_trans (a b c : string) :
  String.leb a b = true -> String.leb b c = true -> String.leb a c = true.
Proof.
  rewrite !string_leb_spec. intros [->|Hab] [->|Hbc]; auto.
  right. exact (OrderedTypeEx.String_as_OT.lt_trans _ _ _ Hab Hbc).
Qed.

Lemma code_le_trans (p q r : string * string) :
  code_le p q -> code_le q r -> code_le p r.
Proof. apply string_leb_trans. Qed.

Lemma code_le_flip (p q : string * string) :
  String.leb (fst p) (fst q) = false -> code_le q p.
Proof.
  intros H. destruct (String.leb_total (fst p) (fst q)) as [H'|H'];
    [congruence | exact H'].
Qed.

Lemma insert_by_code_In (p x : string * string) (l : list (string * string)) :
  In x (insert_by_code p l) <-> x = p \/ In x l.
Proof.
  induction l as [|q l IH]; simpl; [intuition congruence|].
  destruct (String.leb (fst p) (fst q)); simpl; [intuition congruence|].
  rewrite IH. intuition congruence.
Qed.

Lemma sort_values_In (x : string * string) (l : list (string * string)) :
  In x (sort_values l) <-> In x l.
Proof.
  induction l as [|p l IH]; simpl; [tauto|].
  rewrite insert_by_code_In, IH. intuition congruence.
Qed.

Lemma insert_by_code_sorted (p : string * string) (l : list (string * string)) :
  StronglySorted code_le l -> StronglySorted code_le (insert_by_code p l).
Proof.
  induction l as [|q l IH]; simpl; intros Hs.
  - constructor; constructor.
  - inversion Hs as [|? ? Hl Hq]; subst.
    destruct (String.leb (fst p) (fst q)) eqn:E.
    + constructor; [exact Hs|]. constructor; [exact E|].
      apply Forall_forall. intros y Hy.
      apply (code_le_trans p q y E). rewrite Forall_forall in Hq. auto.
    + constructor; [auto|]. apply Forall_forall. intros y Hy.
      apply insert_by_code_In in Hy. destruct Hy as [->|Hy].
      * apply code_le_flip, E.
      * rewrite Forall_forall in Hq. auto.
Qed.

Lemma sort_values_sorted (l : list (string * string)) :
  StronglySorted code_le (sort_values l).
Proof.
  induction l as [|p l IH]; simpl; [constructor|].
  apply insert_by_code_sorted, IH.
Qed.

Lemma insert_by_code_NoDup (p : string * string) (l : list (string * string)) :
  ~ In p l -> NoDup l -> NoDup (insert_by_code p l).
Proof.
  induction l as [|q l IH]; simpl; intros Hnot Hnd.
  - constructor; [tauto | constructor].
  - destruct (String.leb (fst p) (fst q)).
    + constructor; [simpl; tauto | exact Hnd].
    + inversion Hnd as [|? ? Hq Hl]; subst. constructor.
      * rewrite insert_by_code_In. intuition congruence.
      * apply IH; tauto.
Qed.

Lemma sort_values_NoDup (l : list (string * string)) :
  NoDup l -> NoDup (sort_values l).
Proof.
  induction l as [|p l IH]; simpl; intros H; [constructor|].
  inversion H as [|? ? Hp Hl]; subst.
  apply insert_by_code_NoDup; [rewrite sort_values_In; exact Hp | auto].
Qed.

Lemma sort_values_length (l : list (string * string)) :
  List.length (sort_values l) = List.length l.
Proof.
  assert (Hins : forall p m, List.length (insert_by_code p m) = S (List.length m)).
  { intros p m. induction m as [|q m IH]; simpl; [reflexivity|].
    destruct (String.leb (fst p) (fst q)); simpl; [|rewrite IH]; reflexivity. }
  induction l as [|p l IH]; simpl; [reflexivity|]. rewrite Hins, IH. reflexivity.
Qed.

Lemma StronglySorted_firstn {B : Type} (R : B -> B -> Prop) (n : nat) (l : list B) :
  StronglySorted R l -> StronglySorted R (firstn n l).
Proof.
  revert l. induction n as [|n IH]; intros l H; [constructor|].
  destruct l as [|b l]; [constructor|]. simpl.
  inversion H as [|? ? Hl Hb]; subst. constructor; [auto|].
  apply Forall_forall. intros y Hy. rewrite Forall_forall in Hb. apply Hb.
  rewrite <- (firstn_skipn n l). apply in_or_app. auto.
Qed.

Lemma In_firstn {B : Type} (n : nat) (l : list B) (x : B) :
  In x (firstn n l) -> In x l.
Proof.
  intros H. rewrite <- (firstn_skipn n l). apply in_or_app. auto.
Qed.

(** The records are distinct pairs, ascending by code, at most 20, and
    each is the (code, name) of a row of the selection. *)
Lemma records_spec (cfg : level_cfg) (subset : frame) :
  NoDup (records cfg subset)
  /\ StronglySorted code_le (records cfg subset)
  /\ List.length (records cfg subset) <= 20
  /\ forall p, In p (records cfg subset) ->
       exists x, In x subset /\ p = (code cfg x, name cfg x).
Proof.
  unfold records. repeat split.
  - apply NoDup_firstn, sort_values_NoDup.
    apply (NoDup_map_inv pair_key), drop_duplicates_NoDup.
  - apply StronglySorted_firstn, sort_values_sorted.
  - rewrite length_firstn. apply Nat.le_min_l.
  - intros p Hp. apply In_firstn, sort_values_In, drop_duplicates_In in Hp.
    apply in_map_iff in Hp. destruct Hp as [x [Hx Hin]]. exists x. auto.
Qed.

Lemma str_contains_In col pat df sel x :
  str_contains col pat df = Ret sel -> In x sel -> In x df.
Proof.
  unfold str_contains. destruct (Re.compile pat); simpl; try discriminate.
  intros H. injection H as <-. intros Hin. apply filter_In in Hin. tauto.
Qed.

Lemma match_query_In cfg q subset sel x :
  match_query cfg q subset = Ret sel -> In x sel -> In x subset.
Proof.
  unfold match_query. destruct (PyStr.truthy q).
  - destruct (PyStr.isdigit q); [apply str_contains_In|].
    destruct (String.length q =? 1); [|apply str_contains_In].
    intros H. injection H as <-. intros Hin. apply filter_In in Hin. tauto.
  - intros H. injection H as <-. trivial.
Qed.

(** What a returned list of suggestions is made of. *)
Lemma get_cached_suggestions_inv df level query prov kab kec l :
  get_cached_suggestions df level query prov kab kec = Ret l ->
  l = [] \/
  exists cfg sel,
    config level = Some cfg
    /\ match_query cfg (PyStr.lower (PyStr.strip query))
         (narrow df prov kab kec) = Ret sel
    /\ l = records cfg sel.
Proof.
  unfold get_cached_suggestions. destruct (empty df); [left; congruence|].
  destruct (empty (narrow df prov kab kec)); [left; congruence|].
  destruct (config level) as [cfg|]; [|left; congruence].
  destruct (match_query cfg _ _) as [sel| |] eqn:E; simpl; try discriminate.
  intros H. injection H as <-. right. exists cfg, sel. auto.
Qed.

Lemma empty_nil {B : Type} (l : list B) : empty l = true <-> l = [].
Proof. destruct l; simpl; split; congruence. Qed.

(** Every suggestion is the (code, name) of a row that carries the
    supplied ancestor codes. *)
Lemma suggestions_from_scope df level query prov kab kec l p :
  get_cached_suggestions df level query prov kab kec = Ret l -> In p l ->
  exists cfg x,
    config level = Some cfg /\ In x df /\ anc_ok prov kab kec x
    /\ p = (code cfg x, name cfg x).
Proof.
  intros Hret Hin. apply get_cached_suggestions_inv in Hret.
  destruct Hret as [->|(cfg & sel & Hcfg & Hq & ->)]; [destruct Hin|].
  apply records_spec in Hin. destruct Hin as (x & Hx & ->).
  apply (match_query_In _ _ _ _ _ Hq), narrow_In in Hx.
  exists cfg, x. tauto.
Qed.

(** C6, as stated, fails: province suggestions change when a regency code
    is supplied. *)
Lemma get_cached_suggestions_lower_code_counterexample :
  get_cached_suggestions Sample.df "prov" "" "" "" "" =
    Ret [("31", "DKI JAKARTA"); ("32", "JAWA BARAT")]
  /\ get_cached_suggestions Sample.df "prov" "" "" "79" "" =
    Ret [("32", "JAWA BARAT")]
  /\ get_cached_suggestions Sample.df "prov" "" "" "79" "" <>
     get_cached_suggestions Sample.df "prov" "" "" "" "".
Proof. repeat split; try reflexivity. vm_compute. discriminate. Qed.

(** C6 (amended): whatever the requested level, each of the three codes
    that is supplied non-empty constrains the candidates by equality, and
    only an empty code is ignored: the request gives what the same
    request without codes gives on the rows that carry all three. *)
Theorem get_cached_suggestions_all_codes df level query prov kab kec :
  get_cached_suggestions df level query prov kab kec =
  get_cached_suggestions (filter (anc_okb prov kab kec) df) level query "" "" "".
Proof.
  rewrite <- narrow_filter. unfold get_cached_suggestions.
  rewrite narrow_no_codes.
  destruct (empty df) eqn:Hdf.
  - apply empty_nil in Hdf. subst df. rewrite (narrow_filter []). reflexivity.
  - destruct (empty (narrow df prov kab kec)); reflexivity.
Qed.

(** C7, at the failing inputs: [str.contains] compiles the text as a
    regular expression, and an unbalanced parenthesis makes [re.compile]
    raise [re.error] out of the result-table call and out of the
    suggestion call, on every data set that has a row.
    ([highlight_text] escapes the same text with [re.escape] before it
    builds its pattern.) *)
Theorem api_search_table_raises (x : row) (df : frame) (expand : bool) :
  api_search_table (x :: df) "(" false "" false "" false "" false expand =
    Raise ReError
  /\ get_cached_suggestions (x :: df) "kabupaten" "j(" "" "" "" = Raise ReError
  /\ api_get_suggestions (x :: df) "kabupaten" "j(" "" "" "" = Raise ReError.
Proof.
  split; [|split].
  - unfold api_search_table, filter_levels, apply_filter, str_contains.
    reflexivity.
  - unfold get_cached_suggestions, match_query, str_contains. reflexivity.
  - unfold api_get_suggestions, get_cached_suggestions, match_query,
      str_contains. reflexivity.
Qed.

(** ** Suggestions: the shape of every result *)

Lemma config_none (level : string) :
  config level = None <->
  existsb (String.eqb level) ["prov"; "kabupaten"; "kecamatan"; "desa"] = false.
Proof.
  unfold config. simpl.
  destruct (String.eqb level "prov"), (String.eqb level "kabupaten"),
    (String.eqb level "kecamatan"), (String.eqb level "desa");
    simpl; split; congruence.
Qed.

Lemma cached_result_shape df level query prov kab kec l :
  get_cached_suggestions df level query prov kab kec = Ret l ->
  NoDup l /\ StronglySorted code_le l /\ List.length l <= 20.
Proof.
  intros Hret. apply get_cached_suggestions_inv in Hret.
  destruct Hret as [->|(cfg & sel & _ & _ & ->)].
  - repeat split; [constructor | constructor | simpl; lia].
  - destruct (records_spec cfg sel) as (H1 & H2 & H3 & _). auto.
Qed.

Lemma api_get_suggestions_inv df level query prov kab kec l :
  api_get_suggestions df level query prov kab kec = Ret l ->
  l = [] \/ get_cached_suggestions df level query prov kab kec = Ret l.
Proof.
  unfold api_get_suggestions. destruct (negb _); [left; congruence | auto].
Qed.

(** ** The codes after a load *)

Module ZfillFacts.
Import PyStr.

Lemma zeros_length (n : nat) : String.length (zeros n) = n.
Proof. induction n as [|n IH]; simpl; [|rewrite IH]; reflexivity. Qed.

Lemma app_length (a b : string) :
  String.length (a ++ b) = String.length a + String.length b.
Proof. induction a as [|c a IH]; simpl; [|rewrite IH]; reflexivity. Qed.

Lemma zeros_digits (n : nat) : all_chars isdigit_char (zeros n) = true.
Proof. induction n as [|n IH]; simpl; [reflexivity | exact IH]. Qed.

Lemma all_chars_app (p : ascii -> bool) (a b : string) :
  all_chars p (a ++ b) = all_chars p a && all_chars p b.
Proof.
  induction a as [|c a IH]; simpl; [reflexivity|].
  rewrite IH, andb_assoc. reflexivity.
Qed.

(** [zfill] never shortens: the result has the larger of the two lengths. *)
Lemma zfill_length (width : nat) (s : string) :
  String.length (zfill width s) = Nat.max width (String.length s).
Proof.
  unfold zfill. destruct (width <=? String.length s) eqn:E.
  - apply Nat.leb_le in E. lia.
  - apply Nat.leb_gt in E. destruct s as [|c s'].
    + rewrite zeros_length. simpl. lia.
    + destruct (Ascii.eqb c "+" || Ascii.eqb c "-"); simpl in *;
        rewrite app_length, zeros_length; simpl; lia.
Qed.

Lemma digit_not_sign (c : ascii) :
  isdigit_char c = true -> Ascii.eqb c "+" || Ascii.eqb c "-" = false.
Proof.
  destruct c as [[] [] [] [] [] [] [] []]; intros H;
    solve [ reflexivity | discriminate H ].
Qed.

Lemma all_digits_isdigit (s : string) :
  0 < String.length s -> all_chars isdigit_char s = true -> isdigit s = true.
Proof. destruct s; simpl; [lia | trivial]. Qed.

(** Digits stay digits: the padding adds zeros in front of them. *)
Lemma zfill_digits (width : nat) (s : string) :
  0 < width -> all_chars isdigit_char s = true -> isdigit (zfill width s) = true.
Proof.
  intros Hw Hs. apply all_digits_isdigit.
  - rewrite zfill_length. lia.
  - unfold zfill. destruct (width <=? String.length s); [exact Hs|].
    destruct s as [|c s']; [apply zeros_digits|].
    assert (Hc : isdigit_char c = true)
      by (simpl in Hs; apply andb_prop in Hs; tauto).
    rewrite (digit_not_sign c Hc), all_chars_app, zeros_digits. exact Hs.
Qed.

End ZfillFacts.

Lemma pad_code_padded (width : nat) (cell : option string) :
  0 < width -> padded width cell (pad_code width cell).
Proof.
  intros Hw. unfold padded, pad_code. split; [reflexivity|]. split.
  - rewrite ZfillFacts.zfill_length. lia.
  - intros Hd Hlen. split.
    + rewrite ZfillFacts.zfill_length. lia.
    + apply ZfillFacts.zfill_digits; assumption.
Qed.

(** C8, as stated, fails: [zfill] only pads.  A province cell ["123"]
    stays three characters long, a regency cell ["AB"] stays letters, a
    village cell ["-7"] becomes ["-07"]. *)
Lemma load_data_codes_counterexample :
  exists x,
    In x OddData.df
    /\ String.length (kode_prov x) <> 2
    /\ PyStr.isdigit (kode_kab x) = false
    /\ String.length (kode_kec x) <> 3
    /\ PyStr.isdigit (kode_desa x) = false.
Proof.
  eexists. split; [left; reflexivity|].
  repeat split; try reflexivity; vm_compute; discriminate.
Qed.

(** C8 (amended): after a successful load every row comes from a line of
    the source, and each of its codes is the cell of that line, stripped
    and left-padded with ['0']: kode_prov and kode_kab have at least 2
    characters, kode_kec and kode_desa at least 3; a code has exactly
    that many characters, all numeric, when the stripped cell is made of
    digits (or is empty) and is not longer than the width. *)
Theorem load_data_codes (lines : list raw_row) (x : row) :
  In x (load_data (Some lines)) ->
  exists raw,
    In raw lines
    /\ padded 2 (raw_kode_prov raw) (kode_prov x)
    /\ padded 2 (raw_kode_kab raw) (kode_kab x)
    /\ padded 3 (raw_kode_kec raw) (kode_kec x)
    /\ padded 3 (raw_kode_desa raw) (kode_desa x).
Proof.
  simpl. intros Hin. apply in_map_iff in Hin.
  destruct Hin as [raw [<- Hraw]]. exists raw.
  split; [exact Hraw|]. simpl.
  split; [|split; [|split]]; apply pad_code_padded; lia.
Qed.

Lemma load_data_codes_witness :
  exists raw,
    In raw Sample.master
    /\ padded 2 (raw_kode_prov raw) "31"
    /\ padded 2 (raw_kode_kab raw) "01"
    /\ padded 3 (raw_kode_kec raw) "010"
    /\ padded 3 (raw_kode_desa raw) "001".
Proof.
  apply (load_data_codes Sample.master (hd (load_row DupData.village) Sample.df)).
  simpl. left. reflexivity.
Defined.

(** ** The states of the result table *)

(** C9: with all four inputs empty the call answers "awaiting input" on
    a loaded data set, never a table and never "no matches"; a failed
    load leaves the empty data set, on which every result-table call
    answers "no data set loaded" and every suggestion call the empty
    list: nothing is raised. *)
Theorem api_search_table_status :
  (forall df pe ke kce de expand,
     api_search_table df "" pe "" ke "" kce "" de expand =
     Ret (if empty df then NoDataset else AwaitingInput))
  /\ load_data None = []
  /\ (forall prov pe kab ke kec kce desa de expand,
        api_search_table (load_data None) prov pe kab ke kec kce desa de expand =
        Ret NoDataset)
  /\ (forall level query prov kab kec,
        get_cached_suggestions (load_data None) level query prov kab kec = Ret []
        /\ api_get_suggestions (load_data None) level query prov kab kec = Ret []).
Proof.
  split; [|split; [|split]].
  - intros df pe ke kce de expand. unfold api_search_table.
    destruct (empty df); reflexivity.
  - reflexivity.
  - reflexivity.
  - intros level query prov kab kec. split; [reflexivity|].
    unfold api_get_suggestions. destruct (negb _); reflexivity.
Qed.

(** * Further properties of the code *)

(** ** The filter selects, in frame order, the rows every level accepts *)

Lemma str_contains_filter col pat df sel :
  str_contains col pat df = Ret sel ->
  exists r, Re.compile pat = Ret r /\ sel = filter (fun x => Re.search r (col x)) df.
Proof.
  unfold str_contains. destruct (Re.compile pat) as [r| |]; simpl; try discriminate.
  intros H. injection H as <-. exists r. auto.
Qed.

Lemma apply_filter_filter df val is_exact col_code col_search code_len sel :
  apply_filter df val is_exact col_code col_search code_len = Ret sel ->
  exists p, sel = filter p df.
Proof.
  unfold apply_filter. destruct (negb (PyStr.truthy val)).
  - intros H. injection H as <-. exists (fun _ => true).
    symmetry. apply filter_true.
  - destruct (PyStr.isdigit _ && _).
    + intros H. injection H as <-. eexists. reflexivity.
    + destruct is_exact.
      * intros H. injection H as <-. eexists. reflexivity.
      * intros H. apply str_contains_filter in H. destruct H as (r & _ & ->).
        eexists. reflexivity.
Qed.

Lemma filter_at_spec lv df val is_exact sel :
  filter_at lv df val is_exact = Ret sel ->
  forall x, In x sel <-> In x df /\ level_holds lv val is_exact x.
Proof.
  unfold filter_at, apply_filter, level_holds.
  destruct val as [|c val'] eqn:Hval.
  - simpl. intros H. injection H as <-. intros x. tauto.
  - rewrite <- Hval. replace (negb (PyStr.truthy val)) with false by (subst; reflexivity).
    assert (Hne : val <> "") by (subst; discriminate).
    destruct (PyStr.isdigit _ && _).
    + intros H. injection H as <-. intros x.
      rewrite filter_In, String.eqb_eq. tauto.
    + destruct is_exact.
      * intros H. injection H as <-. intros x.
        rewrite filter_In, String.eqb_eq. tauto.
      * intros H. apply str_contains_filter in H. destruct H as (r & Hr & ->).
        intros x. rewrite filter_In. split.
        -- intros [Hin Hs]. split; [exact Hin|]. right. exists r. auto.
        -- intros [Hin [Hempty|(r' & Hr' & Hs)]]; [contradiction|].
           rewrite Hr in Hr'. injection Hr' as <-. auto.
Qed.

Lemma filter_levels_filter df prov pe kab ke kec kce desa de sel :
  filter_levels df prov pe kab ke kec kce desa de = Ret sel ->
  exists p, sel = filter p df.
Proof.
  unfold filter_levels.
  destruct (apply_filter df prov _ _ _ _) as [s1| |] eqn:E1; try discriminate.
  cbn [bind].
  destruct (apply_filter s1 kab _ _ _ _) as [s2| |] eqn:E2; try discriminate.
  cbn [bind].
  destruct (apply_filter s2 kec _ _ _ _) as [s3| |] eqn:E3; try discriminate.
  cbn [bind]. intros E4.
  apply apply_filter_filter in E1, E2, E3, E4.
  destruct E1 as [p1 ->], E2 as [p2 ->], E3 as [p3 ->], E4 as [p4 ->].
  rewrite !filter_filter. eexists. reflexivity.
Qed.

Lemma filter_levels_spec df prov pe kab ke kec kce desa de sel :
  filter_levels df prov pe kab ke kec kce desa de = Ret sel ->
  forall x, In x sel <->
            In x df /\ all_levels_hold prov pe kab ke kec kce desa de x.
Proof.
  rewrite filter_levels_at. unfold all_levels_hold.
  destruct (filter_at LProv df prov pe) as [s1| |] eqn:E1; try discriminate.
  cbn [bind].
  destruct (filter_at LKab s1 kab ke) as [s2| |] eqn:E2; try discriminate.
  cbn [bind].
  destruct (filter_at LKec s2 kec kce) as [s3| |] eqn:E3; try discriminate.
  cbn [bind]. intros E4 x.
  rewrite (filter_at_spec _ _ _ _ _ E4 x), (filter_at_spec _ _ _ _ _ E3 x),
    (filter_at_spec _ _ _ _ _ E2 x), (filter_at_spec _ _ _ _ _ E1 x).
  tauto.
Qed.

Lemma drop_duplicates_length {A : Type} (key : A -> list string) (l : list A) :
  List.length (drop_duplicates key l) <= List.length l.
Proof.
  induction l as [|a l IH]; simpl; [lia|].
  pose proof (filter_length_le
                (fun y => negb (key_eqb (key y) (key a))) (drop_duplicates key l)).
  lia.
Qed.

Lemma dedup_view_length view_level subset :
  List.length (dedup_view view_level subset) <= List.length subset.
Proof.
  unfold dedup_view.
  destruct (view_level =? 1); [apply drop_duplicates_length|].
  destruct (view_level =? 2); [apply drop_duplicates_length|].
  destruct (view_level =? 3); [apply drop_duplicates_length | lia].
Qed.

Lemma dedup_view_In view_level subset x :
  In x (dedup_view view_level subset) -> In x subset.
Proof.
  unfold dedup_view.
  destruct (view_level =? 1); [apply drop_duplicates_In|].
  destruct (view_level =? 2); [apply drop_duplicates_In|].
  destruct (view_level =? 3); [apply drop_duplicates_In | trivial].
Qed.

Lemma dedup_view_nonempty view_level subset :
  empty subset = false -> empty (dedup_view view_level subset) = false.
Proof.
  destruct subset as [|x l]; [discriminate|]. intros _. unfold dedup_view.
  destruct (view_level =? 1); [reflexivity|].
  destruct (view_level =? 2); [reflexivity|].
  destruct (view_level =? 3); reflexivity.
Qed.

(** Every key of the selection is the key of a row kept. *)
Lemma dedup_view_keys view_level subset x :
  In x subset ->
  exists y, In y (dedup_view view_level subset)
            /\ composite_key view_level y = composite_key view_level x.
Proof.
  intros Hin.
  destruct (Nat.le_gt_cases 1 view_level) as [H1|H1];
    [destruct (Nat.le_gt_cases view_level 3) as [H3|H3]|].
  - rewrite (dedup_view_drop view_level subset (conj H1 H3)).
    assert (Hk : In (composite_key view_level x)
                    (map (composite_key view_level) subset))
      by (apply in_map; exact Hin).
    apply drop_duplicates_keys, in_map_iff in Hk.
    destruct Hk as [y [Hy Hyin]]. exists y. auto.
  - exists x. split; [|reflexivity].
    unfold dedup_view.
    replace (view_level =? 1) with false by (symmetry; apply Nat.eqb_neq; lia).
    replace (view_level =? 2) with false by (symmetry; apply Nat.eqb_neq; lia).
    replace (view_level =? 3) with false by (symmetry; apply Nat.eqb_neq; lia).
    exact Hin.
  - exists x. split; [|reflexivity].
    assert (view_level = 0) by lia. subst. exact Hin.
Qed.

(** X1: the rows of a returned table are rows of the data set that
    satisfy the input of every level at once, and no such row is lost:
    unless the table was cut at 100, each row of the data set that
    satisfies all four inputs has its codes down to the view level on a
    row of the table. *)
Theorem api_search_table_rows df prov pe kab ke kec kce desa de expand
    view_level total rows info :
  api_search_table df prov pe kab ke kec kce desa de expand =
    Ret (Table view_level total rows info) ->
  (forall x, In x rows ->
     In x df /\ all_levels_hold prov pe kab ke kec kce desa de x)
  /\ (info = false ->
      forall x, In x df -> all_levels_hold prov pe kab ke kec kce desa de x ->
      exists y, In y rows
                /\ composite_key view_level y = composite_key view_level x).
Proof.
  intros Hret. apply api_search_table_inv in Hret.
  destruct Hret as (sel & Hf & _ & _ & _ & Htot & Hrows & Hinfo).
  pose proof (filter_levels_spec _ _ _ _ _ _ _ _ _ _ Hf) as Hspec.
  split.
  - intros x Hx. subst rows. apply In_firstn, dedup_view_In in Hx.
    apply Hspec. exact Hx.
  - intros Hfalse x Hx Hall.
    assert (Hsel : In x sel) by (apply Hspec; auto).
    destruct (dedup_view_keys view_level sel x Hsel) as (y & Hy & Hk).
    exists y. split; [|exact Hk].
    subst rows info. apply Nat.ltb_ge in Hfalse.
    rewrite firstn_all2 by lia. exact Hy.
Qed.

Lemma api_search_table_rows_witness :
  In (hd (load_row DupData.village) Sample.df) Sample.df
  /\ all_levels_hold "31" false "01" false "" false "" false
       (hd (load_row DupData.village) Sample.df).
Proof.
  apply (proj1 (api_search_table_rows Sample.df "31" false "01" false
                  "" false "" false false 2 1 (firstn 1 Sample.df) false
                  eq_refl)).
  simpl. left. reflexivity.
Defined.

(** ** The table that is returned *)

(** X2: a returned table is never empty and never larger than its
    source: the view level is between 1 and 4, there is at least one row
    and at most 100, not more rows than the total, not a larger total
    than the data set has rows, and without the banner the rows are all
    of the total. *)
Theorem api_search_table_bounds df prov pe kab ke kec kce desa de expand
    view_level total rows info :
  api_search_table df prov pe kab ke kec kce desa de expand =
    Ret (Table view_level total rows info) ->
  1 <= view_level <= 4
  /\ 1 <= List.length rows <= 100
  /\ List.length rows <= total
  /\ total <= List.length df
  /\ (info = false -> List.length rows = total).
Proof.
  intros Hret. apply api_search_table_inv in Hret.
  destruct Hret as (sel & Hf & Hne & _ & Hvl & Htot & Hrows & Hinfo).
  pose proof (dedup_view_nonempty view_level sel Hne) as Hd.
  pose proof (dedup_view_length view_level sel) as Hlen.
  apply filter_levels_filter in Hf. destruct Hf as [p Hp].
  pose proof (filter_length_le p df) as Hfl. rewrite <- Hp in Hfl.
  assert (Hpos : 1 <= total).
  { subst total. destruct (dedup_view view_level sel); [discriminate|simpl; lia]. }
  assert (Hr : List.length rows = Nat.min 100 total).
  { subst rows total. apply length_firstn. }
  split; [subst view_level; apply decide_view_level_range|].
  split; [lia|]. split; [lia|]. split; [lia|].
  intros Hfalse. subst info. apply Nat.ltb_ge in Hfalse. unfold LIMIT in Hfalse. lia.
Qed.

Lemma api_search_table_bounds_witness :
  1 <= 2 <= 4
  /\ 1 <= List.length (firstn 1 Sample.df) <= 100
  /\ List.length (firstn 1 Sample.df) <= 1
  /\ 1 <= List.length Sample.df
  /\ (false = false -> List.length (firstn 1 Sample.df) = 1).
Proof.
  exact (api_search_table_bounds Sample.df "31" false "01" false
           "" false "" false false 2 1 (firstn 1 Sample.df) false eq_refl).
Defined.

(** ** When the result-table call returns *)

Module LowerFacts.
Import PyStr.

Lemma lower_char_special (c : ascii) :
  Re.is_special (lower_char c) = Re.is_special c.
Proof. destruct c as [[] [] [] [] [] [] [] []]; reflexivity. Qed.

Lemma lower_char_idem (c : ascii) : lower_char (lower_char c) = lower_char c.
Proof. destruct c as [[] [] [] [] [] [] [] []]; reflexivity. Qed.

Lemma lower_char_digit (c : ascii) :
  isdigit_char (lower_char c) = isdigit_char c.
Proof. destruct c as [[] [] [] [] [] [] [] []]; reflexivity. Qed.

Lemma lower_char_space (c : ascii) :
  isspace_char (lower_char c) = isspace_char c.
Proof. destruct c as [[] [] [] [] [] [] [] []]; reflexivity. Qed.

Lemma all_chars_lower (p : ascii -> bool) (s : string) :
  (forall c, p (lower_char c) = p c) ->
  all_chars p (lower s) = all_chars p s.
Proof.
  intros Hp. induction s as [|c s IH]; simpl; [reflexivity|].
  rewrite Hp, IH. reflexivity.
Qed.

Lemma plain_lower (s : string) : Re.plain (lower s) = Re.plain s.
Proof.
  unfold Re.plain. apply all_chars_lower.
  intros c. rewrite lower_char_special. reflexivity.
Qed.

Lemma lower_idem (s : string) : lower (lower s) = lower s.
Proof.
  induction s as [|c s IH]; simpl; [reflexivity|].
  rewrite lower_char_idem, IH. reflexivity.
Qed.

Lemma lower_length (s : string) : String.length (lower s) = String.length s.
Proof. induction s as [|c s IH]; simpl; [|rewrite IH]; reflexivity. Qed.

Lemma lower_truthy (s : string) : truthy (lower s) = truthy s.
Proof. destruct s; reflexivity. Qed.

Lemma lower_isdigit (s : string) : isdigit (lower s) = isdigit s.
Proof.
  destruct s as [|c s]; [reflexivity|].
  change (all_chars isdigit_char (lower (String c s))
          = all_chars isdigit_char (String c s)).
  apply all_chars_lower, lower_char_digit.
Qed.

Lemma lower_slice (n : nat) (s : string) :
  slice_to n (lower s) = lower (slice_to n s).
Proof.
  unfold slice_to. revert s. induction n as [|n IH]; intros s.
  - destruct s; reflexivity.
  - destruct s as [|c s]; [reflexivity|]. simpl. rewrite IH. reflexivity.
Qed.

Lemma plain_slice (n : nat) (s : string) :
  Re.plain s = true -> Re.plain (slice_to n s) = true.
Proof. apply PyStrFacts.slice_to_all. Qed.

End LowerFacts.

Lemma apply_filter_returns df val is_exact col_code col_search code_len :
  safe_input val is_exact = true ->
  exists sel, apply_filter df val is_exact col_code col_search code_len = Ret sel.
Proof.
  unfold safe_input, apply_filter. intros Hsafe.
  destruct (negb (PyStr.truthy val)); [eauto|].
  destruct (PyStr.isdigit _ && _); [eauto|].
  destruct is_exact; [eauto|]. simpl in Hsafe.
  rewrite str_contains_plain; [eauto|].
  rewrite LowerFacts.plain_lower. apply LowerFacts.plain_slice, Hsafe.
Qed.

(** X3: the result-table call returns, whatever the data set, when each
    of the four inputs either has its exact flag set or is free of the
    fourteen special characters of the pattern syntax. *)
Theorem api_search_table_returns df prov pe kab ke kec kce desa de expand :
  safe_input prov pe = true -> safe_input kab ke = true ->
  safe_input kec kce = true -> safe_input desa de = true ->
  exists page, api_search_table df prov pe kab ke kec kce desa de expand = Ret page.
Proof.
  intros H1 H2 H3 H4. unfold api_search_table.
  destruct (empty df); [eauto|].
  destruct (negb _); [eauto|]. unfold filter_levels.
  destruct (apply_filter_returns df prov pe kode_prov _search_prov 2 H1) as [s1 ->].
  cbn [bind].
  destruct (apply_filter_returns s1 kab ke kode_kab _search_kab 2 H2) as [s2 ->].
  cbn [bind].
  destruct (apply_filter_returns s2 kec kce kode_kec _search_kec 3 H3) as [s3 ->].
  cbn [bind].
  destruct (apply_filter_returns s3 desa de kode_desa _search_desa 3 H4) as [s4 ->].
  cbn [bind]. destruct (empty s4); eauto.
Qed.

Lemma api_search_table_returns_witness :
  exists page,
    api_search_table Sample.df "(" true "Jakarta" false "" false "" false true =
    Ret page.
Proof.
  apply api_search_table_returns; reflexivity.
Defined.

(** X4: the four filters are all applied, also to a selection that is
    already empty: once the province input has been applied, an
    unbalanced parenthesis in the regency input raises, whether or not
    any row is left. *)
Theorem api_search_table_no_short_circuit x df prov pe sel expand :
  filter_at LProv (x :: df) prov pe = Ret sel ->
  api_search_table (x :: df) prov pe "(" false "" false "" false expand =
  Raise ReError.
Proof.
  intros Hf. unfold api_search_table. cbn [empty].
  replace (existsb PyStr.truthy [prov; "("; ""; ""]) with true
    by (simpl; rewrite orb_true_r; reflexivity).
  cbn [negb]. unfold filter_levels. unfold filter_at in Hf. simpl in Hf.
  rewrite Hf. reflexivity.
Qed.

Lemma api_search_table_no_short_circuit_witness :
  api_search_table Sample.df "99" false "(" false "" false "" false false =
  Raise ReError.
Proof.
  apply (api_search_table_no_short_circuit
           (hd (load_row DupData.village) Sample.df) (tl Sample.df)
           "99" false []).
  reflexivity.
Defined.

(** ** Suggestions through the endpoint *)

(** X5: the level test of [api_get_suggestions] changes nothing: for
    every level name, known or not, the endpoint gives what
    [get_cached_suggestions] gives. *)
Theorem api_get_suggestions_same df level query prov kab kec :
  api_get_suggestions df level query prov kab kec =
  get_cached_suggestions df level query prov kab kec.
Proof.
  unfold api_get_suggestions.
  destruct (existsb _ _) eqn:E; [reflexivity|]. cbn [negb].
  apply config_none in E. unfold get_cached_suggestions. rewrite E.
  destruct (empty df), (empty (narrow df prov kab kec)); reflexivity.
Qed.

(** ** Letter case and surrounding blanks of the inputs *)

Lemma apply_filter_lower df val is_exact col_code col_search code_len :
  apply_filter df (PyStr.lower val) is_exact col_code col_search code_len =
  apply_filter df val is_exact col_code col_search code_len.
Proof.
  unfold apply_filter. rewrite LowerFacts.lower_truthy.
  destruct (negb (PyStr.truthy val)); [reflexivity|].
  rewrite LowerFacts.lower_slice. set (v := PyStr.slice_to 50 val).
  rewrite LowerFacts.lower_isdigit, LowerFacts.lower_length, LowerFacts.lower_idem.
  destruct (PyStr.isdigit v) eqn:Hd; [|reflexivity].
  rewrite (PyStrFacts.isdigit_lower v Hd). reflexivity.
Qed.

(** X6: on inputs whose characters are code points below 256, where
    [str.lower] maps one character to one character, the result-table
    call does not see the letter case of its inputs: lowercasing all
    four gives the same page, with the same view level, total, rows and
    banner, or the same exception.  (Beyond those code points
    [str.lower] can lengthen a string, and the cut at 50 then falls
    elsewhere.) *)
Theorem api_search_table_lower df prov pe kab ke kec kce desa de expand :
  api_search_table df (PyStr.lower prov) pe (PyStr.lower kab) ke
    (PyStr.lower kec) kce (PyStr.lower desa) de expand =
  api_search_table df prov pe kab ke kec kce desa de expand.
Proof.
  unfold api_search_table, filter_levels, decide_view_level. cbn [existsb].
  rewrite !LowerFacts.lower_truthy.
  rewrite (apply_filter_lower df prov).
  destruct (apply_filter df prov _ _ _ _) as [s1| |]; cbn [bind];
    [|reflexivity|reflexivity].
  rewrite (apply_filter_lower s1 kab).
  destruct (apply_filter s1 kab _ _ _ _) as [s2| |]; cbn [bind];
    [|reflexivity|reflexivity].
  rewrite (apply_filter_lower s2 kec).
  destruct (apply_filter s2 kec _ _ _ _) as [s3| |]; cbn [bind];
    [|reflexivity|reflexivity].
  rewrite (apply_filter_lower s3 desa). reflexivity.
Qed.

Module StripFacts.
Import PyStr.

Lemma lstrip_head_ok (s : string) : head_ok (lstrip s).
Proof.
  induction s as [|c s IH]; simpl; [exact I|].
  destruct (isspace_char c) eqn:E; [exact IH | exact E].
Qed.

Lemma lstrip_fixed (s : string) : head_ok s -> lstrip s = s.
Proof. destruct s as [|c s]; simpl; [reflexivity|]. intros ->. reflexivity. Qed.

Lemma rstrip_cons (c : ascii) (s : string) :
  isspace_char c = false -> rstrip (String c s) = String c (rstrip s).
Proof. intros H. simpl. rewrite H. destruct (rstrip s); reflexivity. Qed.

Lemma rstrip_head_ok (s : string) : head_ok s -> head_ok (rstrip s).
Proof.
  destruct s as [|c s]; [trivial|]. intros H. simpl in H.
  rewrite (rstrip_cons c s H). exact H.
Qed.

Lemma rstrip_idem (s : string) : rstrip (rstrip s) = rstrip s.
Proof.
  induction s as [|c s IH]; [reflexivity|].
  simpl. destruct (rstrip s) as [|d t] eqn:E.
  - destruct (isspace_char c) eqn:Ec; [reflexivity|].
    simpl. rewrite Ec. reflexivity.
  - change (rstrip (String c (String d t)) = String c (String d t)).
    simpl. simpl in IH. rewrite IH. reflexivity.
Qed.

Lemma strip_idem (s : string) : strip (strip s) = strip s.
Proof.
  unfold strip.
  rewrite (lstrip_fixed (rstrip (lstrip s)))
    by apply rstrip_head_ok, lstrip_head_ok.
  apply rstrip_idem.
Qed.

Lemma lstrip_lower (s : string) : lstrip (lower s) = lower (lstrip s).
Proof.
  induction s as [|c s IH]; [reflexivity|].
  simpl. rewrite LowerFacts.lower_char_space.
  destruct (isspace_char c); [exact IH | reflexivity].
Qed.

Lemma rstrip_lower (s : string) : rstrip (lower s) = lower (rstrip s).
Proof.
  induction s as [|c s IH]; [reflexivity|].
  simpl. rewrite IH, LowerFacts.lower_char_space.
  destruct (rstrip s); simpl; [destruct (isspace_char c)|]; reflexivity.
Qed.

Lemma strip_lower (s : string) : strip (lower s) = lower (strip s).
Proof. unfold strip. rewrite lstrip_lower, rstrip_lower. reflexivity. Qed.

(** The query as [get_cached_suggestions] reads it is a fixed point of
    that reading. *)
Lemma normal_query (query : string) :
  lower (strip (lower (strip query))) = lower (strip query).
Proof. rewrite strip_lower, strip_idem, LowerFacts.lower_idem. reflexivity. Qed.

End StripFacts.

(** X7: a suggestion request does not see the letter case of the query
    nor the blanks around it: the query stripped and lowercased gives
    the same result, or the same exception. *)
Theorem get_cached_suggestions_normal df level query prov kab kec :
  get_cached_suggestions df level (PyStr.lower (PyStr.strip query)) prov kab kec =
  get_cached_suggestions df level query prov kab kec.
Proof.
  unfold get_cached_suggestions. rewrite StripFacts.normal_query. reflexivity.
Qed.

(** ** Loading what was loaded *)

Module PadFacts.
Import PyStr.

Lemma zero_not_space : isspace_char "0" = false.
Proof. reflexivity. Qed.

Lemma rstrip_zeros_app (n : nat) (s : string) :
  rstrip (zeros n ++ s) = (zeros n ++ rstrip s)%string.
Proof.
  induction n as [|n IH]; [reflexivity|].
  change (rstrip (String "0" (zeros n ++ s)) = String "0" (zeros n ++ rstrip s)).
  rewrite (StripFacts.rstrip_cons _ _ zero_not_space), IH. reflexivity.
Qed.

Lemma rstrip_zeros (n : nat) : rstrip (zeros n) = zeros n.
Proof.
  induction n as [|n IH]; [reflexivity|].
  change (rstrip (String "0" (zeros n)) = String "0" (zeros n)).
  rewrite (StripFacts.rstrip_cons _ _ zero_not_space), IH. reflexivity.
Qed.

Lemma zeros_head_ok (n : nat) : head_ok (zeros n).
Proof. destruct n; [exact I | reflexivity]. Qed.

Lemma sign_not_space (c : ascii) :
  Ascii.eqb c "+" || Ascii.eqb c "-" = true -> isspace_char c = false.
Proof.
  destruct c as [[] [] [] [] [] [] [] []]; intros H;
    solve [ reflexivity | discriminate H ].
Qed.

Lemma strip_fixed (s : string) :
  head_ok s -> rstrip s = s -> strip s = s.
Proof.
  intros Hh Hr. unfold strip. rewrite (StripFacts.lstrip_fixed s Hh). exact Hr.
Qed.

Lemma strip_head_ok (s : string) : head_ok (strip s).
Proof. apply StripFacts.rstrip_head_ok, StripFacts.lstrip_head_ok. Qed.

Lemma strip_rstrip (s : string) : rstrip (strip s) = strip s.
Proof. apply StripFacts.rstrip_idem. Qed.

(** Padding a stripped string leaves nothing to strip. *)
Lemma strip_zfill (width : nat) (t : string) :
  head_ok t -> rstrip t = t -> strip (zfill width t) = zfill width t.
Proof.
  intros Hh Hr. unfold zfill.
  destruct (width <=? String.length t); [apply strip_fixed; assumption|].
  destruct t as [|c t'].
  - apply strip_fixed; [apply zeros_head_ok | apply rstrip_zeros].
  - simpl in Hh. rewrite (StripFacts.rstrip_cons c t' Hh) in Hr.
    injection Hr as Hr.
    destruct (Ascii.eqb c "+" || Ascii.eqb c "-") eqn:Es.
    + apply strip_fixed; [exact Hh|].
      rewrite (StripFacts.rstrip_cons _ _ Hh), rstrip_zeros_app, Hr. reflexivity.
    + apply strip_fixed.
      * destruct (width - String.length (String c t')); [exact Hh | reflexivity].
      * rewrite rstrip_zeros_app, (StripFacts.rstrip_cons c t' Hh), Hr.
        reflexivity.
Qed.

Lemma zfill_idem (width : nat) (s : string) :
  zfill width (zfill width s) = zfill width s.
Proof.
  unfold zfill at 1.
  replace (width <=? String.length (zfill width s)) with true; [reflexivity|].
  symmetry. apply Nat.leb_le. rewrite ZfillFacts.zfill_length. lia.
Qed.

End PadFacts.

Lemma pad_code_idem (width : nat) (cell : option string) :
  pad_code width (Some (pad_code width cell)) = pad_code width cell.
Proof.
  unfold pad_code. cbn [fillna].
  rewrite (PadFacts.strip_zfill width (PyStr.strip (fillna cell)))
    by (apply PadFacts.strip_head_ok || apply PadFacts.strip_rstrip).
  apply PadFacts.zfill_idem.
Qed.

(** X8: a loaded data set is a fixed point of the load: on every row,
    stripping and padding a code again gives that code, and lowercasing
    a search column again gives that column. *)
Theorem load_data_stable (lines : list raw_row) (x : row) :
  In x (load_data (Some lines)) ->
  pad_code 2 (Some (kode_prov x)) = kode_prov x
  /\ pad_code 2 (Some (kode_kab x)) = kode_kab x
  /\ pad_code 3 (Some (kode_kec x)) = kode_kec x
  /\ pad_code 3 (Some (kode_desa x)) = kode_desa x
  /\ PyStr.lower (_search_prov x) = _search_prov x
  /\ PyStr.lower (_search_kab x) = _search_kab x
  /\ PyStr.lower (_search_kec x) = _search_kec x
  /\ PyStr.lower (_search_desa x) = _search_desa x.
Proof.
  simpl. intros Hin. apply in_map_iff in Hin. destruct Hin as [raw [<- _]].
  simpl. rewrite !pad_code_idem, !LowerFacts.lower_idem. repeat split.
Qed.

Lemma load_data_stable_witness :
  pad_code 2 (Some "123") = "123"
  /\ pad_code 2 (Some "AB") = "AB"
  /\ pad_code 3 (Some "1234") = "1234"
  /\ pad_code 3 (Some "-07") = "-07"
  /\ PyStr.lower "provinsi" = "provinsi"
  /\ PyStr.lower "kabupaten" = "kabupaten"
  /\ PyStr.lower "kecamatan" = "kecamatan"
  /\ PyStr.lower "desa" = "desa".
Proof.
  apply (load_data_stable
           [Sample.line "123" "PROVINSI" "AB" "KABUPATEN" "1234" "KECAMATAN"
              "-7" "DESA"]
           (hd (load_row DupData.village) OddData.df)).
  simpl. left. reflexivity.
Defined.

(** ** Expanding the view *)

Lemma NoDup_map_refine {A : Type} (k1 k2 : A -> list string) (l : list A) :
  (forall x y, k2 x = k2 y -> k1 x = k1 y) ->
  NoDup (map k1 l) -> NoDup (map k2 l).
Proof.
  intros Href. induction l as [|a l IH]; simpl; intros H; [constructor|].
  inversion H as [|? ? Hnot Hnd]; subst. constructor; [|auto].
  intros Hin. apply Hnot. apply in_map_iff in Hin.
  destruct Hin as [y [Hy Hyin]]. apply in_map_iff. exists y.
  split; [apply Href; exact Hy | exact Hyin].
Qed.

(** A finer key keeps at least as many rows. *)
Lemma drop_duplicates_refine {A : Type} (k1 k2 : A -> list string) (l : list A) :
  (forall x y, k2 x = k2 y -> k1 x = k1 y) ->
  List.length (drop_duplicates k1 l) <= List.length (drop_duplicates k2 l).
Proof.
  intros Href.
  rewrite <- (length_map k2 (drop_duplicates k1 l)),
          <- (length_map k2 (drop_duplicates k2 l)).
  apply NoDup_incl_length.
  - apply (NoDup_map_refine k1 k2 _ Href), drop_duplicates_NoDup.
  - intros k Hk. apply (proj1 (drop_duplicates_keys k2 l k)).
    apply in_map_iff in Hk. destruct Hk as [y [Hy Hyin]].
    apply in_map_iff. exists y. split; [exact Hy|].
    exact (drop_duplicates_In k1 l y Hyin).
Qed.

Lemma composite_key_firstn (a b : nat) (x : row) :
  a <= b -> composite_key a x = firstn a (composite_key b x).
Proof.
  intros Hab. unfold composite_key, subset_key.
  rewrite firstn_map, firstn_firstn, Nat.min_l by exact Hab. reflexivity.
Qed.

Lemma dedup_view_deep (view_level : nat) (subset : frame) :
  4 <= view_level -> dedup_view view_level subset = subset.
Proof.
  intros H. unfold dedup_view.
  replace (view_level =? 1) with false by (symmetry; apply Nat.eqb_neq; lia).
  replace (view_level =? 2) with false by (symmetry; apply Nat.eqb_neq; lia).
  replace (view_level =? 3) with false by (symmetry; apply Nat.eqb_neq; lia).
  reflexivity.
Qed.

Lemma dedup_view_mono (a b : nat) (subset : frame) :
  1 <= a -> a <= b ->
  List.length (dedup_view a subset) <= List.length (dedup_view b subset).
Proof.
  intros Ha Hab. destruct (Nat.le_gt_cases b 3) as [Hb|Hb].
  - rewrite (dedup_view_drop a subset), (dedup_view_drop b subset) by lia.
    apply drop_duplicates_refine. intros x y Hk.
    rewrite (composite_key_firstn a b x Hab), (composite_key_firstn a b y Hab), Hk.
    reflexivity.
  - rewrite (dedup_view_deep b subset) by lia. apply dedup_view_length.
Qed.

Lemma decide_view_level_expand prov kab kec desa :
  decide_view_level prov kab kec desa true =
  Nat.min 4 (decide_view_level prov kab kec desa false + 1).
Proof.
  unfold decide_view_level.
  destruct (PyStr.truthy desa), (PyStr.truthy kec), (PyStr.truthy kab),
    (PyStr.truthy prov); reflexivity.
Qed.

(** X9: asking to expand never shows less.  When a call without
    [expand] returns a table, the same call with [expand] returns a
    table too, one level deeper (never deeper than 4), with a total and
    a number of rows that are not smaller. *)
Theorem api_search_table_expand df prov pe kab ke kec kce desa de
    view_level total rows info :
  api_search_table df prov pe kab ke kec kce desa de false =
    Ret (Table view_level total rows info) ->
  exists total' rows' info',
    api_search_table df prov pe kab ke kec kce desa de true =
      Ret (Table (Nat.min 4 (view_level + 1)) total' rows' info')
    /\ total <= total'
    /\ List.length rows <= List.length rows'.
Proof.
  intros Hret. apply api_search_table_inv in Hret.
  destruct Hret as (sel & Hf & Hne & Hany & Hvl & Htot & Hrows & _).
  pose proof (api_search_table_table df prov pe kab ke kec kce desa de true
                sel Hany Hf Hne) as Hexp.
  cbv zeta in Hexp. rewrite decide_view_level_expand, <- Hvl in Hexp.
  eexists _, _, _. split; [exact Hexp|].
  assert (Hmono : List.length (dedup_view view_level sel)
                  <= List.length (dedup_view (Nat.min 4 (view_level + 1)) sel)).
  { pose proof (decide_view_level_range prov kab kec desa false) as Hr.
    rewrite <- Hvl in Hr. apply dedup_view_mono; lia. }
  subst total rows. split; [exact Hmono|].
  rewrite !length_firstn. lia.
Qed.

Lemma api_search_table_expand_witness :
  exists total' rows' info',
    api_search_table Sample.df "jawa" false "" false "" false "" false true =
      Ret (Table (Nat.min 4 (1 + 1)) total' rows' info')
    /\ 1 <= total'
    /\ List.length (firstn 1 (skipn 2 Sample.df)) <= List.length rows'.
Proof.
  exact (api_search_table_expand Sample.df "jawa" false "" false "" false
           "" false 1 1 (firstn 1 (skipn 2 Sample.df)) false eq_refl).
Defined.

(** ** Suggestions for a query without special characters *)

Lemma match_query_holds (cfg : level_cfg) (q : string) (subset : frame) :
  Re.plain q = true ->
  match_query cfg q subset = Ret (filter (query_holds cfg q) subset).
Proof.
  intros Hp. rewrite (match_query_plain cfg q subset Hp). f_equal.
  unfold query_holds. destruct (PyStr.truthy q); [|symmetry; apply filter_true].
  destruct (PyStr.isdigit q); [reflexivity|].
  destruct (String.length q =? 1); reflexivity.
Qed.

Lemma StronglySorted_app_le {B : Type} (R : B -> B -> Prop) (a b : list B) :
  StronglySorted R (a ++ b) -> forall p q, In p a -> In q b -> R p q.
Proof.
  induction a as [|c a IH]; simpl; intros Hs p q Hp Hq; [destruct Hp|].
  inversion Hs as [|? ? Hs' Hall]; subst.
  destruct Hp as [->|Hp]; [|eauto].
  rewrite Forall_forall in Hall. apply Hall, in_or_app. auto.
Qed.

(** The first [n] of a sorted list: what is left out is not below what
    is kept, and something is left out only when [n] are kept. *)
Lemma firstn_sorted_cut {B : Type} (R : B -> B -> Prop) (n : nat) (l : list B)
    (x : B) :
  StronglySorted R l -> In x l ->
  In x (firstn n l)
  \/ (List.length (firstn n l) = n /\ forall p, In p (firstn n l) -> R p x).
Proof.
  intros Hs Hx. rewrite <- (firstn_skipn n l) in Hx, Hs.
  apply in_app_or in Hx. destruct Hx as [Hx|Hx]; [left; exact Hx|].
  right. split.
  - rewrite length_firstn. apply Nat.min_l.
    destruct (Nat.le_gt_cases n (List.length l)) as [H|H]; [exact H|].
    rewrite skipn_all2 in Hx by lia. destruct Hx.
  - intros p Hp. exact (StronglySorted_app_le R _ _ Hs p x Hp Hx).
Qed.

Lemma drop_duplicates_complete {A : Type} (key : A -> list string)
    (inj : forall a b, key a = key b -> a = b) (l : list A) (x : A) :
  In x l -> In x (drop_duplicates key l).
Proof.
  intros Hin.
  assert (Hk : In (key x) (map key l)) by (apply in_map; exact Hin).
  apply (proj1 (drop_duplicates_keys key l (key x))) in Hk.
  apply in_map_iff in Hk. destruct Hk as [y [Hy Hyin]].
  apply inj in Hy. subst y. exact Hyin.
Qed.

Lemma pair_key_inj (a b : string * string) : pair_key a = pair_key b -> a = b.
Proof.
  destruct a, b. unfold pair_key. simpl. intros H. injection H as -> ->.
  reflexivity.
Qed.

(** Every row of the selection has its pair among the records, or 20
    records with codes not above its code were kept. *)
Lemma records_complete (cfg : level_cfg) (subset : frame) (x : row) :
  In x subset ->
  In (code cfg x, name cfg x) (records cfg subset)
  \/ (List.length (records cfg subset) = 20
      /\ forall p, In p (records cfg subset) ->
           code_le p (code cfg x, name cfg x)).
Proof.
  intros Hin. unfold records. apply firstn_sorted_cut.
  - apply sort_values_sorted.
  - apply sort_values_In, (drop_duplicates_complete pair_key pair_key_inj).
    apply in_map_iff. exists x. auto.
Qed.

(** X10: for a query that, stripped and lowercased, has no special
    character, a suggestion request at a known level returns; each pair
    returned is the (code, name) of a row that carries the supplied
    codes and that the query accepts (digits in the code, one character
    at the start of the lowercase name, several anywhere in it); and
    each such row has its pair in the result unless 20 pairs were
    returned, none of them with a code above that row's code. *)
Theorem get_cached_suggestions_literal df level cfg query prov kab kec :
  Re.plain (PyStr.lower (PyStr.strip query)) = true ->
  config level = Some cfg ->
  exists l,
    get_cached_suggestions df level query prov kab kec = Ret l
    /\ (forall p, In p l ->
          exists x, In x df /\ anc_ok prov kab kec x
                    /\ query_holds cfg (PyStr.lower (PyStr.strip query)) x = true
                    /\ p = (code cfg x, name cfg x))
    /\ (forall x, In x df -> anc_ok prov kab kec x ->
          query_holds cfg (PyStr.lower (PyStr.strip query)) x = true ->
          In (code cfg x, name cfg x) l
          \/ (List.length l = 20
              /\ forall p, In p l -> code_le p (code cfg x, name cfg x))).
Proof.
  intros Hp Hcfg. set (q := PyStr.lower (PyStr.strip query)) in *.
  unfold get_cached_suggestions. fold q.
  destruct (empty df) eqn:Hdf.
  { apply empty_nil in Hdf. subst df. exists []. repeat split.
    - intros p [].
    - intros x []. }
  destruct (empty (narrow df prov kab kec)) eqn:Hn.
  { apply empty_nil in Hn. exists []. repeat split.
    - intros p [].
    - intros x Hx Hanc _. exfalso.
      assert (In x (narrow df prov kab kec)) by (apply narrow_In; auto).
      rewrite Hn in H. destruct H. }
  rewrite Hcfg, (match_query_holds cfg q _ Hp). cbn [bind].
  eexists. split; [reflexivity|]. split.
  - intros p Hin. apply records_spec in Hin. destruct Hin as (x & Hx & ->).
    apply filter_In in Hx. destruct Hx as [Hx Hq].
    apply narrow_In in Hx. exists x. tauto.
  - intros x Hx Hanc Hq. apply records_complete.
    apply filter_In. split; [apply narrow_In; auto | exact Hq].
Qed.

Lemma get_cached_suggestions_literal_witness :
  exists l,
    get_cached_suggestions Sample.df "kabupaten" " J" "" "" "" = Ret l
    /\ (forall p, In p l ->
          exists x, In x Sample.df /\ anc_ok "" "" "" x
                    /\ PyStr.startswith "j" (_search_kab x) = true
                    /\ p = (kode_kab x, kab_nama x))
    /\ (forall x, In x Sample.df -> anc_ok "" "" "" x ->
          PyStr.startswith "j" (_search_kab x) = true ->
          In (kode_kab x, kab_nama x) l
          \/ (List.length l = 20
              /\ forall p, In p l -> code_le p (kode_kab x, kab_nama x))).
Proof.
  exact (get_cached_suggestions_literal Sample.df "kabupaten"
           {| code := kode_kab; name := kab_nama; search := _search_kab |}
           " J" "" "" "" eq_refl eq_refl).
Defined.

(** ** The pattern of [highlight_text] *)

Module EscapeFacts.
Import Re Highlight.

Lemma escaped_not_alnum (c : ascii) : escaped_char c = true -> is_alnum c = false.
Proof.
  destruct c as [[] [] [] [] [] [] [] []]; intros H;
    solve [ reflexivity | discriminate H ].
Qed.

Lemma unescaped_not_special (c : ascii) :
  escaped_char c = false -> is_special c = false.
Proof.
  unfold escaped_char. intros H.
  do 6 (apply orb_false_elim in H; destruct H as [H _]). exact H.
Qed.

(** After an escaped query and a closing parenthesis no repeat follows. *)
Lemma with_repeat_escaped (r : regex) (q tail : string) :
  with_repeat r (re_escape q ++ String ")" tail)
  = POk r (re_escape q ++ String ")" tail).
Proof.
  destruct q as [|c q]; [reflexivity|].
  simpl. destruct (escaped_char c) eqn:E; [reflexivity|].
  apply unescaped_not_special, ReFacts.special_false in E.
  destruct E as [E _]. simpl. rewrite E. reflexivity.
Qed.

Lemma parse_seq_escaped (q tail : string) :
  forall fuel, String.length q < fuel ->
  parse_seq fuel (re_escape q ++ String ")" tail) = POk (lit q) (String ")" tail).
Proof.
  induction q as [|c q IH]; intros fuel Hf.
  - destruct fuel; [lia | reflexivity].
  - destruct fuel as [|f]; [lia|].
    assert (Hq : parse_seq f (re_escape q ++ String ")" tail)
                 = POk (lit q) (String ")" tail))
      by (apply IH; simpl in Hf; lia).
    simpl re_escape. destruct (escaped_char c) eqn:E.
    + change ((String "\" (String c (re_escape q)) ++ String ")" tail)%string)
        with (String "\" (String c (re_escape q ++ String ")" tail))).
      cbn [parse_seq]. cbn [Ascii.eqb Bool.eqb orb andb is_repeat is_unmodelled].
      rewrite (escaped_not_alnum c E), with_repeat_escaped, Hq. reflexivity.
    + apply unescaped_not_special, ReFacts.special_false in E.
      destruct E as (Hr & Hu & Hdot & Hbs & Hbar & Hop & Hcl).
      change ((String c (re_escape q) ++ String ")" tail)%string)
        with (String c (re_escape q ++ String ")" tail)).
      cbn [parse_seq]. rewrite Hbar, Hcl, Hr, Hu, Hop, Hbs, Hdot. cbn [orb].
      rewrite with_repeat_escaped, Hq. reflexivity.
Qed.

Lemma head_not_qmark (q tail : string) :
  exists c rest,
    (re_escape q ++ String ")" tail)%string = String c rest
    /\ Ascii.eqb c "?" = false.
Proof.
  destruct q as [|c q]; [exists ")"%char, tail; auto|].
  simpl. destruct (escaped_char c) eqn:E.
  - eexists _, _. split; [reflexivity | reflexivity].
  - exists c. eexists. split; [reflexivity|].
    apply unescaped_not_special, ReFacts.special_false in E.
    destruct E as [E _]. unfold is_repeat in E.
    apply orb_false_elim in E. tauto.
Qed.

(** Opening a group that does not begin with a question mark. *)
Lemma parse_seq_group (f : nat) (c : ascii) (rest : string) :
  Ascii.eqb c "?" = false ->
  parse_seq (S f) (String "(" (String c rest)) =
  let item :=
    match parse_alt f (String c rest) with
    | POk r (String ")" rest') => with_repeat r rest'
    | POk _ _ => PErr
    | e => e
    end in
  match item with
  | POk r rest' =>
      match parse_seq f rest' with
      | POk r2 rest2 => POk (RSeq r r2) rest2
      | e => e
      end
  | e => e
  end.
Proof.
  intros H. destruct c as [[] [] [] [] [] [] [] []];
    solve [ discriminate H | reflexivity ].
Qed.

Lemma compile_pattern (q : string) :
  compile (pattern_of q) = Ret (RSeq (lit q) REps).
Proof.
  unfold compile, pattern_of.
  set (n := 2 * String.length ("(" ++ re_escape q ++ ")") + 2).
  assert (Hn : String.length q + 4 <= n).
  { unfold n. simpl. rewrite ZfillFacts.app_length.
    assert (String.length q <= String.length (re_escape q)).
    { clear. induction q as [|c q IH]; simpl; [lia|].
      destruct (escaped_char c); simpl; lia. }
    lia. }
  destruct n as [|[|[|m]]]; try lia.
  change (("(" ++ re_escape q ++ ")")%string)
    with (String "(" (re_escape q ++ String ")" "")).
  destruct (head_not_qmark q "") as (c & rest & Heq & Hc).
  cbn [parse_alt]. rewrite Heq, (parse_seq_group (S m) c rest Hc), <- Heq.
  cbn [parse_alt]. rewrite (parse_seq_escaped q "" m) by lia.
  reflexivity.
Qed.

Lemma seq_lit_eps (p : string) :
  seq (lit p) REps = match p with EmptyString => REps | _ => RSeq (lit p) REps end.
Proof. destruct p; reflexivity. Qed.

Lemma match_here_group (p s : string) :
  match_here (RSeq (lit p) REps) s = match_here (lit p) s.
Proof.
  revert s. induction p as [|a p IH]; intros s.
  - destruct s; reflexivity.
  - destruct s as [|c s]; [reflexivity|].
    cbn [match_here lit nullable deriv andb orb].
    rewrite !ReFacts.alt_none_r.
    destruct (Ascii.eqb a c).
    + rewrite ReFacts.seq_eps_lit, seq_lit_eps.
      destruct p as [|b p]; [destruct s; reflexivity | apply IH].
    + reflexivity.
Qed.

Lemma search_group (p s : string) :
  search (RSeq (lit p) REps) s = PyStr.contains p s.
Proof.
  rewrite <- ReFacts.search_lit.
  induction s as [|c s IH]; cbn [search]; rewrite match_here_group;
    [|rewrite IH]; reflexivity.
Qed.

End EscapeFacts.

(** X11: the pattern [highlight_text] builds from a query, the escaped
    query in a group, compiles whatever the query is, so that call
    cannot raise [re.error]; without flags the compiled expression is
    found in a text exactly where the query is a substring of it. *)
Theorem highlight_pattern_literal (query : string) :
  exists r,
    Re.compile (Highlight.pattern_of query) = Ret r
    /\ forall s, Re.search r s = PyStr.contains query s.
Proof.
  exists (Re.RSeq (Re.lit query) Re.REps).
  split; [apply EscapeFacts.compile_pattern|].
  intros s. apply EscapeFacts.search_group.
Qed.

(** ** What [highlight_text] does to a text *)

Module HighlightFacts.
Import PyStr Highlight.

Lemma slice_split (n : nat) (s : string) :
  (slice_to n s ++ slice_from n s)%string = s.
Proof.
  unfold slice_to. revert s. induction n as [|n IH]; intros s.
  - destruct s; reflexivity.
  - destruct s as [|c s]; [reflexivity|]. simpl. rewrite IH. reflexivity.
Qed.

Lemma slice_from_length (n : nat) (s : string) :
  String.length (slice_from n s) = String.length s - n.
Proof.
  revert s. induction n as [|n IH]; intros s; [simpl; lia|].
  destruct s as [|c s]; [reflexivity|]. simpl. apply IH.
Qed.

Lemma sub_wrap_erase (q : string) (fuel : nat) (text : string) :
  sub_wrap "" "" q fuel text = text.
Proof.
  revert text. induction fuel as [|f IH]; intros text; [reflexivity|].
  destruct text as [|c rest]; [reflexivity|].
  cbn [sub_wrap]. destruct (match_at q (String c rest)).
  - rewrite IH. cbn [String.append]. apply slice_split.
  - rewrite IH. reflexivity.
Qed.

Lemma contains_cons_false (p : string) (c : ascii) (s : string) :
  contains p (String c s) = false ->
  String.prefix p (String c s) = false /\ contains p s = false.
Proof. cbn [contains]. intros H. apply orb_false_elim in H. exact H. Qed.

Lemma sub_wrap_unchanged (o cl q : string) (fuel : nat) (text : string) :
  contains (lower q) (lower text) = false -> sub_wrap o cl q fuel text = text.
Proof.
  revert text. induction fuel as [|f IH]; intros text H; [reflexivity|].
  destruct text as [|c rest]; [reflexivity|].
  cbn [lower] in H. apply contains_cons_false in H. destruct H as [Hp Hc].
  cbn [sub_wrap]. unfold match_at. cbn [lower]. rewrite Hp, (IH rest Hc).
  reflexivity.
Qed.

Lemma sub_wrap_length_ge (o cl q : string) (fuel : nat) (text : string) :
  String.length text <= String.length (sub_wrap o cl q fuel text).
Proof.
  revert text. induction fuel as [|f IH]; intros text; [simpl; lia|].
  destruct text as [|c rest]; [simpl; lia|].
  cbn [sub_wrap]. destruct (match_at q (String c rest)).
  - rewrite !ZfillFacts.app_length.
    pose proof (IH (slice_from (String.length q) (String c rest))) as Hs.
    pose proof (f_equal String.length (slice_split (String.length q) (String c rest)))
      as Hsplit.
    rewrite ZfillFacts.app_length in Hsplit. lia.
  - simpl. pose proof (IH rest). lia.
Qed.

Lemma contains_nonempty_nil (p : string) :
  1 <= String.length p -> contains p "" = false.
Proof. destruct p; simpl; [lia | reflexivity]. Qed.

(** Where the query occurs, the two halves of a mark are added. *)
Lemma sub_wrap_length_gt (o cl q : string) (fuel : nat) (text : string) :
  1 <= String.length q -> String.length text <= fuel ->
  contains (lower q) (lower text) = true ->
  String.length text + String.length o + String.length cl
  <= String.length (sub_wrap o cl q fuel text).
Proof.
  intros Hq. assert (Hlq : 1 <= String.length (lower q))
    by (rewrite LowerFacts.lower_length; exact Hq).
  revert text. induction fuel as [|f IH]; intros text Hf Hc.
  - destruct text; [|simpl in Hf; lia].
    cbn [lower] in Hc. rewrite (contains_nonempty_nil _ Hlq) in Hc. discriminate.
  - destruct text as [|c rest].
    + cbn [lower] in Hc. rewrite (contains_nonempty_nil _ Hlq) in Hc. discriminate.
    + cbn [sub_wrap]. destruct (match_at q (String c rest)) eqn:Em.
      * rewrite !ZfillFacts.app_length.
        pose proof (sub_wrap_length_ge o cl q f
                      (slice_from (String.length q) (String c rest))) as Hs.
        pose proof (f_equal String.length
                      (slice_split (String.length q) (String c rest))) as Hsplit.
        rewrite ZfillFacts.app_length in Hsplit. lia.
      * unfold match_at in Em. cbn [lower] in Hc, Em. cbn [contains] in Hc.
        rewrite Em in Hc. cbn [orb] in Hc.
        simpl in Hf. pose proof (IH rest ltac:(lia) Hc). simpl. lia.
Qed.

End HighlightFacts.

(** Where the query, of two characters or more, occurs in the text,
    letter case aside, the result is longer than the text by a mark. *)
Lemma highlight_text_grows (text query : string) :
  2 <= String.length query ->
  PyStr.contains (PyStr.lower query) (PyStr.lower text) = true ->
  String.length text + String.length Highlight.mark_open
    + String.length Highlight.mark_close
  <= String.length (Highlight.highlight_text text query).
Proof.
  intros Hlen Hc. unfold Highlight.highlight_text, Highlight.highlight_with.
  replace (PyStr.truthy query) with true
    by (destruct query; [simpl in Hlen; lia | reflexivity]).
  replace (String.length query <? 2) with false
    by (symmetry; apply Nat.ltb_ge; exact Hlen).
  cbn [negb orb]. apply HighlightFacts.sub_wrap_length_gt; [lia | lia | exact Hc].
Qed.

(** X12: [highlight_text] only adds marks: with the two halves of the
    mark erased, what it returns is the text, character for character. *)
Theorem highlight_with_erase (text query : string) :
  Highlight.highlight_with "" "" text query = text.
Proof.
  unfold Highlight.highlight_with.
  destruct (negb (PyStr.truthy query) || (String.length query <? 2));
    [reflexivity | apply HighlightFacts.sub_wrap_erase].
Qed.

(** X13: [highlight_text] returns the text unchanged exactly when the
    query has fewer than two characters or does not occur in the text,
    letter case aside; otherwise the result is longer than the text by
    at least one mark. *)
Theorem highlight_text_unchanged (text query : string) :
  (Highlight.highlight_text text query = text <->
   String.length query < 2
   \/ PyStr.contains (PyStr.lower query) (PyStr.lower text) = false)
  /\ (2 <= String.length query ->
      PyStr.contains (PyStr.lower query) (PyStr.lower text) = true ->
      String.length text + String.length Highlight.mark_open
        + String.length Highlight.mark_close
      <= String.length (Highlight.highlight_text text query)).
Proof.
  pose proof (highlight_text_grows text query) as Hgrow.
  split; [|exact Hgrow]. split.
  - intros Heq. destruct (Nat.lt_ge_cases (String.length query) 2) as [H|H];
      [left; exact H|]. right.
    destruct (PyStr.contains (PyStr.lower query) (PyStr.lower text)) eqn:Hc;
      [|reflexivity].
    pose proof (Hgrow H eq_refl) as Hg. rewrite Heq in Hg.
    change (String.length Highlight.mark_close) with 7 in Hg. lia.
  - unfold Highlight.highlight_text, Highlight.highlight_with.
    intros [Hshort|Hno].
    + replace (String.length query <? 2) with true
        by (symmetry; apply Nat.ltb_lt; exact Hshort).
      rewrite orb_true_r. reflexivity.
    + destruct (negb _ || _); [reflexivity|].
      apply HighlightFacts.sub_wrap_unchanged, Hno.
Qed.

(** X14: on names and inputs whose characters are code points below
    256, where matching under [re.IGNORECASE] and containment after
    [str.lower] agree, a row that the loose text filter of a level
    selects is shown with a mark in the name of that level.  For a
    loaded data set and an input of 2 to 50 characters without special
    characters that is not a code of the level, every row [apply_filter]
    keeps with the exact flag off has a name that [highlight_text]
    changes. *)
Theorem filter_then_highlight (lv : level) (lines : list raw_row) (val : string)
    (sel : frame) (x : row) :
  Re.plain val = true ->
  2 <= String.length val <= 50 ->
  PyStr.isdigit val && (String.length val =? level_width lv) = false ->
  filter_at lv (load_data (Some lines)) val false = Ret sel ->
  In x sel ->
  Highlight.highlight_text (level_name lv x) val <> level_name lv x.
Proof.
  intros Hp Hlen Hcode Hf Hin.
  pose proof (proj1 (filter_at_spec _ _ _ _ _ Hf x) Hin) as [Hdf Hh].
  assert (Hs : level_search lv x = PyStr.lower (level_name lv x)).
  { simpl in Hdf. apply in_map_iff in Hdf. destruct Hdf as [raw [<- _]].
    destruct lv; reflexivity. }
  unfold level_holds in Hh. destruct Hh as [Hempty|Hh];
    [subst val; simpl in Hlen; lia|].
  rewrite (PyStrFacts.slice_to_short 50 val) in Hh by lia.
  cbv zeta in Hh. rewrite Hcode in Hh. destruct Hh as (r & Hr & Hsearch).
  rewrite ReFacts.compile_plain in Hr
    by (rewrite LowerFacts.plain_lower; exact Hp).
  injection Hr as <-. rewrite ReFacts.search_lit, Hs in Hsearch.
  intros Heq.
  pose proof (highlight_text_grows (level_name lv x) val (proj1 Hlen) Hsearch)
    as Hg.
  rewrite Heq in Hg. change (String.length Highlight.mark_close) with 7 in Hg.
  lia.
Qed.

Lemma filter_then_highlight_witness :
  Highlight.highlight_text "JAKARTA SELATAN" "karta" <> "JAKARTA SELATAN".
Proof.
  apply (filter_then_highlight LKab Sample.master "karta" (firstn 2 Sample.df)
           (hd (load_row DupData.village) Sample.df)).
  - reflexivity.
  - simpl. lia.
  - reflexivity.
  - reflexivity.
  - simpl. left. reflexivity.
Defined.

(** ** Searching by a code that is there *)

Lemma filter_at_code lv df val is_exact :
  PyStr.isdigit val = true -> String.length val = level_width lv ->
  filter_at lv df val is_exact =
  Ret (filter (fun y => String.eqb (level_code lv y) val) df).
Proof.
  intros Hd Hlen. pose proof (level_width_small lv) as Hw.
  unfold filter_at, apply_filter.
  rewrite (PyStrFacts.isdigit_truthy val Hd). cbn [negb].
  rewrite (PyStrFacts.slice_to_short 50 val) by lia.
  rewrite Hd, Hlen, Nat.eqb_refl. reflexivity.
Qed.

Lemma apply_filter_empty_input df is_exact col_code col_search code_len :
  apply_filter df "" is_exact col_code col_search code_len = Ret df.
Proof. reflexivity. Qed.

(** With one input the four filters are the filter of that level. *)
Lemma filter_levels_one df lv val is_exact :
  match lv with
  | LProv => filter_levels df val is_exact "" false "" false "" false
  | LKab => filter_levels df "" false val is_exact "" false "" false
  | LKec => filter_levels df "" false "" false val is_exact "" false
  | LDesa => filter_levels df "" false "" false "" false val is_exact
  end = filter_at lv df val is_exact.
Proof.
  destruct lv; unfold filter_levels, filter_at;
    cbn [level_code level_search level_width];
    rewrite ?apply_filter_empty_input; cbn [bind];
    rewrite ?apply_filter_empty_input; cbn [bind];
    rewrite ?apply_filter_empty_input; cbn [bind];
    destruct (apply_filter df val is_exact _ _ _); reflexivity.
Qed.

Lemma decide_view_level_one (lv : level) (val : string) (expand : bool) :
  PyStr.truthy val = true ->
  match lv with
  | LProv => decide_view_level val "" "" "" expand
  | LKab => decide_view_level "" val "" "" expand
  | LKec => decide_view_level "" "" val "" expand
  | LDesa => decide_view_level "" "" "" val expand
  end = if expand then Nat.min 4 (level_number lv + 1) else level_number lv.
Proof.
  intros Ht. destruct lv, expand; unfold decide_view_level;
    cbn [PyStr.truthy]; rewrite Ht; reflexivity.
Qed.

Lemma search_one_table (df : frame) (lv : level) (val : string)
    (is_exact expand : bool) (sel : frame) :
  PyStr.truthy val = true ->
  filter_at lv df val is_exact = Ret sel ->
  empty sel = false ->
  search_one df lv val is_exact expand =
  Ret (Table (if expand then Nat.min 4 (level_number lv + 1) else level_number lv)
         (List.length
            (dedup_view
               (if expand then Nat.min 4 (level_number lv + 1) else level_number lv)
               sel))
         (firstn LIMIT
            (dedup_view
               (if expand then Nat.min 4 (level_number lv + 1) else level_number lv)
               sel))
         (LIMIT <? List.length
            (dedup_view
               (if expand then Nat.min 4 (level_number lv + 1) else level_number lv)
               sel))).
Proof.
  intros Ht Hf Hne.
  pose proof (filter_levels_one df lv val is_exact) as Hone. rewrite Hf in Hone.
  pose proof (decide_view_level_one lv val expand Ht) as Hvl.
  destruct lv; cbn [search_one]; rewrite <- Hvl;
    apply api_search_table_table;
    solve [ exact Hone | exact Hne
          | cbn [existsb PyStr.truthy]; rewrite Ht; reflexivity ].
Qed.

(** X15: searching by a code that a row has never answers "no
    matches".  When the code of a row at some level is made of digits
    and has the level's width, the call with that code as its only input
    returns a table at that level (the next one with [expand]), whose
    rows all carry the code, and which, unless it was cut at 100, holds a
    row with the codes of that row down to the view level. *)
Theorem search_by_code (df : frame) (lv : level) (x : row) (expand : bool) :
  In x df ->
  PyStr.isdigit (level_code lv x) = true ->
  String.length (level_code lv x) = level_width lv ->
  let view_level := if expand then Nat.min 4 (level_number lv + 1)
                    else level_number lv in
  exists total rows info,
    search_one df lv (level_code lv x) false expand =
      Ret (Table view_level total rows info)
    /\ 1 <= total
    /\ (forall y, In y rows -> level_code lv y = level_code lv x)
    /\ (info = false ->
        exists y, In y rows
                  /\ composite_key view_level y = composite_key view_level x).
Proof.
  intros Hin Hd Hlen view_level.
  set (val := level_code lv x) in *.
  set (sel := filter (fun y => String.eqb (level_code lv y) val) df).
  assert (Hx : In x sel)
    by (apply filter_In; split; [exact Hin | apply String.eqb_refl]).
  assert (Hne : empty sel = false) by (destruct sel; [destruct Hx | reflexivity]).
  pose proof (search_one_table df lv val false expand sel
                (PyStrFacts.isdigit_truthy val Hd)
                (filter_at_code lv df val false Hd Hlen) Hne) as Hret.
  fold view_level in Hret.
  eexists _, _, _. split; [exact Hret|].
  pose proof (dedup_view_nonempty view_level sel Hne) as Hdn.
  split; [destruct (dedup_view view_level sel); [discriminate | simpl; lia]|].
  split.
  - intros y Hy. apply In_firstn, dedup_view_In, filter_In in Hy.
    apply String.eqb_eq. tauto.
  - intros Hinfo. apply Nat.ltb_ge in Hinfo.
    destruct (dedup_view_keys view_level sel x Hx) as (y & Hy & Hk).
    exists y. split; [|exact Hk]. rewrite firstn_all2 by lia. exact Hy.
Qed.

Lemma search_by_code_witness :
  exists total rows info,
    search_one Sample.df LKab "79" false true = Ret (Table 3 total rows info)
    /\ 1 <= total
    /\ (forall y, In y rows -> kode_kab y = "79")
    /\ (info = false ->
        exists y, In y rows
                  /\ composite_key 3 y = ["32"; "79"; "010"]).
Proof.
  exact (search_by_code Sample.df LKab (hd (load_row DupData.village)
                                           (skipn 3 Sample.df)) true
           ltac:(simpl; tauto) eq_refl eq_refl).
Defined.

(** ** The empty data set *)

(** X16: the result-table call answers "no data set loaded" exactly
    when the load failed or the source had no line: a source with a
    header and nothing else is treated like a missing one. *)
Theorem api_search_table_no_dataset src prov pe kab ke kec kce desa de expand :
  api_search_table (load_data src) prov pe kab ke kec kce desa de expand =
    Ret NoDataset
  <-> src = None \/ src = Some [].
Proof.
  split.
  - destruct src as [[|l lines]|]; [auto | | auto].
    intros H. exfalso. revert H. unfold api_search_table. cbn [load_data map empty].
    destruct (negb _); [discriminate|].
    destruct (filter_levels _ _ _ _ _ _ _ _ _) as [sel| |]; cbn [bind];
      try discriminate.
    destruct (empty sel); discriminate.
  - intros [->| ->]; reflexivity.
Qed.

(** ** Suggestions: scope and content of the result *)

Lemma get_cached_suggestions_narrowed df level query prov kab kec :
  get_cached_suggestions df level query prov kab kec =
  get_cached_suggestions (narrow df prov kab kec) level query "" "" "".
Proof.
  unfold get_cached_suggestions. rewrite narrow_no_codes.
  destruct (empty df) eqn:Hdf.
  - apply empty_nil in Hdf. subst df. rewrite (narrow_filter []). reflexivity.
  - destruct (empty (narrow df prov kab kec)); reflexivity.
Qed.

(** A returned list is empty because nothing is in scope or the level
    is unknown, or it is the records of what the query selects in the
    scope. *)
Lemma get_cached_suggestions_cases df level query prov kab kec l :
  get_cached_suggestions df level query prov kab kec = Ret l ->
  (l = [] /\ (narrow df prov kab kec = [] \/ config level = None))
  \/ exists cfg sel,
       config level = Some cfg
       /\ match_query cfg (PyStr.lower (PyStr.strip query))
            (narrow df prov kab kec) = Ret sel
       /\ l = records cfg sel.
Proof.
  unfold get_cached_suggestions. destruct (empty df) eqn:Hdf.
  { apply empty_nil in Hdf. subst df. intros H. injection H as <-.
    left. split; [reflexivity|]. left. rewrite narrow_filter. reflexivity. }
  destruct (empty (narrow df prov kab kec)) eqn:Hn.
  { apply empty_nil in Hn. intros H. injection H as <-. auto. }
  destruct (config level) as [cfg|]; [|intros H; injection H as <-; auto].
  destruct (match_query cfg _ _) as [sel| |] eqn:E; simpl; try discriminate.
  intros H. injection H as <-. right. exists cfg, sel. auto.
Qed.

(** For a literal query at a known level the call returns exactly the
    pairs of the rows in scope that the query accepts, cut to the 20 of
    lowest code. *)
Lemma suggestions_literal_core df level cfg query prov kab kec :
  Re.plain (PyStr.lower (PyStr.strip query)) = true ->
  config level = Some cfg ->
  exists l,
    get_cached_suggestions df level query prov kab kec = Ret l
    /\ (forall p, In p l ->
          exists x, In x df /\ anc_ok prov kab kec x
                    /\ query_holds cfg (PyStr.lower (PyStr.strip query)) x = true
                    /\ p = (code cfg x, name cfg x))
    /\ (forall x, In x df -> anc_ok prov kab kec x ->
          query_holds cfg (PyStr.lower (PyStr.strip query)) x = true ->
          In (code cfg x, name cfg x) l
          \/ (List.length l = 20
              /\ forall p, In p l -> code_le p (code cfg x, name cfg x))).
Proof.
  intros Hp Hcfg. set (q := PyStr.lower (PyStr.strip query)) in *.
  unfold get_cached_suggestions. fold q.
  destruct (empty df) eqn:Hdf.
  { apply empty_nil in Hdf. subst df. exists []. repeat split.
    - intros p [].
    - intros x []. }
  destruct (empty (narrow df prov kab kec)) eqn:Hn.
  { apply empty_nil in Hn. exists []. repeat split.
    - intros p [].
    - intros x Hx Hanc _. exfalso.
      assert (H : In x (narrow df prov kab kec)) by (apply narrow_In; auto).
      rewrite Hn in H. destruct H. }
  rewrite Hcfg, (match_query_holds cfg q _ Hp). cbn [bind].
  eexists. split; [reflexivity|]. split.
  - intros p Hin. apply records_spec in Hin. destruct Hin as (x & Hx & ->).
    apply filter_In in Hx. destruct Hx as [Hx Hq].
    apply narrow_In in Hx. exists x. tauto.
  - intros x Hx Hanc Hq. apply records_complete.
    apply filter_In. split; [apply narrow_In; auto | exact Hq].
Qed.

Lemma endpoint_same df level query prov kab kec :
  api_get_suggestions df level query prov kab kec =
  get_cached_suggestions df level query prov kab kec.
Proof.
  unfold api_get_suggestions.
  destruct (existsb _ _) eqn:E; [reflexivity|]. cbn [negb].
  apply config_none in E. unfold get_cached_suggestions. rewrite E.
  destruct (empty df), (empty (narrow df prov kab kec)); reflexivity.
Qed.

(** C5: suggestion resolution starts from the full frame and narrows it
    by each supplied ancestor code, compared as a string, an empty code
    asking for nothing: whatever the outcome, the request is the request
    without codes on the rows that carry the supplied codes.  When no
    row carries them the result is the empty list.  Every pair returned
    is the (code, name) of such a row, and for a query without special
    characters every such row that the query accepts is in the result,
    up to the cut at 20.  So district suggestions under province ["31"]
    are never those of a row of province ["32"]. *)
Theorem get_cached_suggestions_scoped df level query prov kab kec :
  (forall x, In x (narrow df prov kab kec) <-> In x df /\ anc_ok prov kab kec x)
  /\ get_cached_suggestions df level query prov kab kec =
     get_cached_suggestions (narrow df prov kab kec) level query "" "" ""
  /\ (narrow df prov kab kec = [] ->
      get_cached_suggestions df level query prov kab kec = Ret [])
  /\ (forall l p,
        get_cached_suggestions df level query prov kab kec = Ret l -> In p l ->
        exists cfg x,
          config level = Some cfg /\ In x df /\ anc_ok prov kab kec x
          /\ p = (code cfg x, name cfg x))
  /\ (forall cfg,
        config level = Some cfg ->
        Re.plain (PyStr.lower (PyStr.strip query)) = true ->
        exists l,
          get_cached_suggestions df level query prov kab kec = Ret l
          /\ forall x, In x df -> anc_ok prov kab kec x ->
               query_holds cfg (PyStr.lower (PyStr.strip query)) x = true ->
               In (code cfg x, name cfg x) l
               \/ (List.length l = 20
                   /\ forall p, In p l -> code_le p (code cfg x, name cfg x)))
  /\ (forall l p,
        get_cached_suggestions df "kecamatan" query "31" kab kec = Ret l ->
        In p l ->
        exists x,
          In x df /\ kode_prov x = "31" /\ kode_prov x <> "32"
          /\ p = (kode_kec x, kec_nama x)).
Proof.
  split; [intros x; apply narrow_In|].
  split; [apply get_cached_suggestions_narrowed|].
  split; [|split; [|split]].
  - intros Hnil. unfold get_cached_suggestions. rewrite Hnil.
    destruct (empty df); reflexivity.
  - intros l p. apply suggestions_from_scope.
  - intros cfg Hcfg Hp.
    destruct (suggestions_literal_core df level cfg query prov kab kec Hp Hcfg)
      as (l & Hret & _ & Hall).
    exists l. auto.
  - intros l p Hret Hin.
    destruct (suggestions_from_scope _ _ _ _ _ _ _ _ Hret Hin)
      as (cfg & x & Hcfg & Hx & (Hp & _) & ->).
    injection Hcfg as <-. exists x. simpl.
    destruct Hp as [Hp|Hp]; [discriminate|].
    repeat split; [exact Hx | exact Hp | rewrite Hp; discriminate].
Qed.

Lemma get_cached_suggestions_scoped_witness :
  (exists x,
     In x Sample.df /\ kode_prov x = "31" /\ kode_prov x <> "32"
     /\ ("010", "KEBAYORAN BARU") = (kode_kec x, kec_nama x))
  /\ get_cached_suggestions Sample.df "kecamatan" "an" "31" "" "" =
     Ret [("010", "KEBAYORAN BARU")]
  /\ get_cached_suggestions Sample.df "kecamatan" "an" "" "" "" =
     Ret [("010", "KEBAYORAN BARU"); ("010", "NANGGUNG"); ("010", "BANJAR")].
Proof.
  split; [|split; reflexivity].
  refine (proj2 (proj2 (proj2 (proj2 (proj2
            (get_cached_suggestions_scoped Sample.df "kecamatan" "an" "31" "" "")))))
            [("010", "KEBAYORAN BARU")] _ _ _).
  - reflexivity.
  - simpl. left. reflexivity.
Defined.

(** C10: a suggestion result, from the function or through the endpoint
    (the two agree), is a list of (code, name) pairs without duplicates,
    ascending by code in the order of Python strings, of at most 20
    entries.  Its pairs are those of the rows the query selects in the
    scope, and a selected row whose pair is missing was cut: 20 pairs
    were kept and none has a code above that row's code.  An
    unrecognized level name gives the empty list.  A query without
    special characters at a known level always gets such a result, with
    the pair of every accepted row in scope up to that cut. *)
Theorem suggestions_shape df level query prov kab kec :
  (forall l, api_get_suggestions df level query prov kab kec = Ret l ->
     NoDup l /\ StronglySorted code_le l /\ List.length l <= 20)
  /\ (forall l, get_cached_suggestions df level query prov kab kec = Ret l ->
     NoDup l /\ StronglySorted code_le l /\ List.length l <= 20)
  /\ (config level = None ->
      get_cached_suggestions df level query prov kab kec = Ret []
      /\ api_get_suggestions df level query prov kab kec = Ret [])
  /\ (Re.plain (PyStr.lower (PyStr.strip query)) = true ->
      exists l, api_get_suggestions df level query prov kab kec = Ret l)
  /\ api_get_suggestions df level query prov kab kec =
     get_cached_suggestions df level query prov kab kec
  /\ (forall l, get_cached_suggestions df level query prov kab kec = Ret l ->
      (l = [] /\ (narrow df prov kab kec = [] \/ config level = None))
      \/ exists cfg sel,
           config level = Some cfg
           /\ match_query cfg (PyStr.lower (PyStr.strip query))
                (narrow df prov kab kec) = Ret sel
           /\ (forall p, In p l ->
                 exists x, In x sel /\ p = (code cfg x, name cfg x))
           /\ (forall x, In x sel ->
                 In (code cfg x, name cfg x) l
                 \/ (List.length l = 20
                     /\ forall p, In p l -> code_le p (code cfg x, name cfg x))))
  /\ (forall cfg,
        config level = Some cfg ->
        Re.plain (PyStr.lower (PyStr.strip query)) = true ->
        exists l,
          api_get_suggestions df level query prov kab kec = Ret l
          /\ (forall p, In p l ->
                exists x, In x df /\ anc_ok prov kab kec x
                  /\ query_holds cfg (PyStr.lower (PyStr.strip query)) x = true
                  /\ p = (code cfg x, name cfg x))
          /\ (forall x, In x df -> anc_ok prov kab kec x ->
                query_holds cfg (PyStr.lower (PyStr.strip query)) x = true ->
                In (code cfg x, name cfg x) l
                \/ (List.length l = 20
                    /\ forall p, In p l -> code_le p (code cfg x, name cfg x)))).
Proof.
  pose proof (endpoint_same df level query prov kab kec) as Hsame.
  split; [|split; [|split; [|split; [|split; [|split]]]]].
  - intros l Hret. rewrite Hsame in Hret.
    exact (cached_result_shape _ _ _ _ _ _ _ Hret).
  - intros l. apply cached_result_shape.
  - intros Hnone. rewrite Hsame. split; [|idtac];
      unfold get_cached_suggestions; rewrite Hnone;
      destruct (empty df), (empty (narrow df prov kab kec)); reflexivity.
  - intros Hp. rewrite Hsame. unfold get_cached_suggestions.
    destruct (empty df); [eauto|].
    destruct (empty (narrow df prov kab kec)); [eauto|].
    destruct (config level) as [cfg|]; [|eauto].
    rewrite (match_query_plain cfg _ _ Hp). simpl. eauto.
  - exact Hsame.
  - intros l Hret. apply get_cached_suggestions_cases in Hret.
    destruct Hret as [Hnil|(cfg & sel & Hcfg & Hq & ->)]; [left; exact Hnil|].
    right. exists cfg, sel. split; [exact Hcfg|]. split; [exact Hq|]. split.
    + intros p Hp. apply records_spec in Hp. exact Hp.
    + intros x Hx. apply records_complete, Hx.
  - intros cfg Hcfg Hp. rewrite Hsame.
    apply suggestions_literal_core; assumption.
Qed.

Lemma suggestions_shape_witness :
  NoDup [("01", "JAKARTA SELATAN"); ("79", "BANJAR")]
  /\ StronglySorted code_le [("01", "JAKARTA SELATAN"); ("79", "BANJAR")]
  /\ List.length [("01", "JAKARTA SELATAN"); ("79", "BANJAR")] <= 20.
Proof.
  apply (proj1 (suggestions_shape Sample.df "kabupaten" " AN " "" "" "")).
  reflexivity.
Defined.
